(** * WCAG alt-text generator: image classification and context extraction

    A shallow embedding of [src/alt_text_generator.py] (class
    [WCAGAltTextGenerator]): the role classifier [_determine_image_role],
    the context extractor [_get_surrounding_text] with its filter
    [is_valid_text], the assembler [extract_image_info] and the generation
    path [generate_alt_text].

    The parsed document is a tree of page elements as BeautifulSoup builds
    it; the text-generation service is an oracle threaded through a small
    state monad that also logs every request sent to it. *)

From Stdlib Require Import ZArith Ascii String List Bool Lia.
From stdpp Require Import base option list strings gmap.

Set Warnings "-register-all".
Open Scope string_scope.
Open Scope list_scope.

(** ** Python [str] operations

    A Python string is modelled as a [string] whose characters are the code
    points 0..255. *)
Module Py.

(** [str.isspace] on one character: the white space of Python below
    code point 256 (tab to carriage return, the four separators 28..31,
    the blank, NEL and the no-break space). *)
Definition isspace (c : ascii) : bool :=
  let n := nat_of_ascii c in
  (Nat.leb 9 n && Nat.leb n 13) || (Nat.leb 28 n && Nat.leb n 32)
  || Nat.eqb n 133 || Nat.eqb n 160.

Fixpoint lstrip (s : string) : string :=
  match s with
  | EmptyString => EmptyString
  | String c s' => if isspace c then lstrip s' else s
  end.

Fixpoint rstrip (s : string) : string :=
  match s with
  | EmptyString => EmptyString
  | String c s' =>
      match rstrip s' with
      | EmptyString => if isspace c then EmptyString else String c EmptyString
      | r => String c r
      end
  end.

(** [s.strip()] *)
Definition strip (s : string) : string := rstrip (lstrip s).

(** [s.startswith(p)] *)
Fixpoint startswith (p s : string) : bool :=
  match p, s with
  | EmptyString, _ => true
  | String _ _, EmptyString => false
  | String a p', String b s' => Ascii.eqb a b && startswith p' s'
  end.

(** [p in s] for two strings: [p] occurs in [s] as a substring. *)
Fixpoint contains (p s : string) : bool :=
  startswith p s
  || match s with
     | EmptyString => false
     | String _ s' => contains p s'
     end.

(** [sep.join(l)] *)
Fixpoint join (sep : string) (l : list string) : string :=
  match l with
  | [] => EmptyString
  | [x] => x
  | x :: l' => x +:+ sep +:+ join sep l'
  end.

(** [len(s)] as a Python integer. *)
Definition len (s : string) : Z := Z.of_nat (String.length s).

(** Truth value of a string: the empty string is false. *)
Definition truthy (s : string) : bool :=
  match s with EmptyString => false | _ => true end.

(** [a == b] on strings. *)
Definition eq (a b : string) : bool := String.eqb a b.

(** [a == b] where [a] may be [None] (the result of [dict.get]). *)
Definition opt_eq (a : option string) (b : string) : bool :=
  match a with Some x => eq x b | None => false end.

(** Truth value of an optional string: [None] and the empty string are
    false. *)
Definition opt_truthy (a : option string) : bool :=
  match a with Some x => truthy x | None => false end.

End Py.

(** ** The parsed document (BeautifulSoup's object model) *)
Module Soup.

(** A page element: a string of the document, or a tag with its
    attribute dictionary and its contents.  [Comment] stands for the
    string classes that [get_text] leaves out (comments, declarations,
    doctypes, processing instructions and, in the versions that give
    them a class of their own, the text of script and style elements);
    the searches with [string=True] see them like any other string. *)
Inductive PageElement : Type :=
| NavigableString (s : string)
| Comment (s : string)
| Tag (name : string) (attrs : gmap string string)
      (contents : list PageElement).

(** An element together with its chain of ancestors, nearest first (the
    generator [.parents]); the last one is the BeautifulSoup object. *)
Record Located : Type := mkLocated {
  element : PageElement;
  parents : list PageElement
}.

(** [.descendants]: everything below [e] in document order, each with
    its ancestors, [ps] being those of [e] itself. *)
Fixpoint descendants (ps : list PageElement) (e : PageElement)
  : list Located :=
  match e with
  | Tag _ _ cs =>
      (fix each (l : list PageElement) : list Located :=
         match l with
         | [] => []
         | c :: l' =>
             (mkLocated c (e :: ps) :: descendants (e :: ps) c) ++ each l'
         end) cs
  | _ => []
  end.

(** The name of an element: [.name] is [None] on strings. *)
Definition name_of (e : PageElement) : option string :=
  match e with Tag n _ _ => Some n | _ => None end.

(** The text of a string element. *)
Definition string_of (e : PageElement) : option string :=
  match e with
  | NavigableString s | Comment s => Some s
  | Tag _ _ _ => None
  end.

(** Truth value of an element, which every search tests before it
    matches: a tag is always true, a string is true when not empty. *)
Definition truthy (e : PageElement) : bool :=
  match e with
  | NavigableString s | Comment s => Py.truthy s
  | Tag _ _ _ => true
  end.

Definition is_tag_named (names : list string) (e : PageElement) : bool :=
  match e with
  | Tag n _ _ => existsb (Py.eq n) names
  | _ => false
  end.

(** What [string=True] matches: a string element that is true. *)
Definition is_string (l : Located) : bool :=
  match string_of (element l) with
  | Some _ => truthy (element l)
  | None => false
  end.

(** [tag.get(key)] *)
Definition get (e : PageElement) (key : string) : option string :=
  match e with
  | Tag _ a _ => a !! key
  | _ => None
  end.

(** [tag.get(key, dflt)] *)
Definition get_default (e : PageElement) (key dflt : string) : string :=
  default dflt (get e key).

(** [tag.find(name)]: the first descendant tag called [name]. *)
Definition find (e : PageElement) (name : string) : option PageElement :=
  element <$> List.find (fun l => is_tag_named [name] (element l))
                        (descendants [] e).

(** [tag.get_text(strip=True)]: the strings below the tag, each
    stripped, the empty ones dropped, joined with nothing between. *)
Definition get_text_strip (e : PageElement) : string :=
  Py.join ""
    (List.filter Py.truthy
       (omap (fun l => match element l with
                       | NavigableString s => Some (Py.strip s)
                       | _ => None
                       end)
             (descendants [] e))).

(** A tag seen from where it stands in the document: the elements
    parsed before it, nearest first ([.previous_elements]), the tag,
    and the elements parsed after it ([.next_elements]). *)
Record Handle : Type := mkHandle {
  previous_elements : list Located;
  here : Located;
  next_elements : list Located
}.

(** Every way of splitting a document-order list at one element. *)
Fixpoint focus (before : list Located) (l : list Located) : list Handle :=
  match l with
  | [] => []
  | x :: l' => mkHandle before x l' :: focus (x :: before) l'
  end.

(** [soup.find_all(name)]: the tags called [name], in document order. *)
Definition find_all (soup : PageElement) (name : string) : list Handle :=
  List.filter (fun h => is_tag_named [name] (element (here h)))
              (focus [] (descendants [] soup)).

(** [tag.find_parent(names)]: the nearest ancestor with one of the
    names. *)
Definition find_parent (h : Handle) (names : list string)
  : option PageElement :=
  List.find (is_tag_named names) (parents (here h)).

(** The strings that repeated [find_previous(string=True)] yields from
    the tag, nearest first, until it returns [None]. *)
Definition find_all_previous_strings (h : Handle) : list Located :=
  List.filter is_string (previous_elements h).

(** The strings that repeated [find_next(string=True)] yields from the
    tag, in document order, until it returns [None]. *)
Definition find_all_next_strings (h : Handle) : list Located :=
  List.filter is_string (next_elements h).

(** [element.parent] *)
Definition parent (l : Located) : option PageElement := head (parents l).

(** [BeautifulSoup(...)]: the root object, a tag by the name
    [[document]] and with no attributes. *)
Definition BeautifulSoup (contents : list PageElement) : PageElement :=
  Tag "[document]" ∅ contents.

End Soup.

Import Soup.

(** ** The generator's records *)

(** The dictionary [role_info] of [_determine_image_role]: eight keys set
    when it is created, and the two keys [link_text] and [link_url] that
    exist only once they were assigned. *)
Record RoleInfo : Type := mkRoleInfo {
  is_decorative : bool;
  is_functional : bool;
  is_informative : bool;
  has_caption : bool;
  in_content : bool;
  in_header : bool;
  in_navigation : bool;
  caption_text : string;
  link_text : option string;
  link_url : option string
}.

(** [role_info[key] = value], one function per key that is assigned. *)
Definition set_is_decorative (v : bool) (r : RoleInfo) : RoleInfo :=
  mkRoleInfo v (is_functional r) (is_informative r) (has_caption r)
    (in_content r) (in_header r) (in_navigation r) (caption_text r)
    (link_text r) (link_url r).
Definition set_is_functional (v : bool) (r : RoleInfo) : RoleInfo :=
  mkRoleInfo (is_decorative r) v (is_informative r) (has_caption r)
    (in_content r) (in_header r) (in_navigation r) (caption_text r)
    (link_text r) (link_url r).
Definition set_is_informative (v : bool) (r : RoleInfo) : RoleInfo :=
  mkRoleInfo (is_decorative r) (is_functional r) v (has_caption r)
    (in_content r) (in_header r) (in_navigation r) (caption_text r)
    (link_text r) (link_url r).
Definition set_has_caption (v : bool) (r : RoleInfo) : RoleInfo :=
  mkRoleInfo (is_decorative r) (is_functional r) (is_informative r) v
    (in_content r) (in_header r) (in_navigation r) (caption_text r)
    (link_text r) (link_url r).
Definition set_in_content (v : bool) (r : RoleInfo) : RoleInfo :=
  mkRoleInfo (is_decorative r) (is_functional r) (is_informative r)
    (has_caption r) v (in_header r) (in_navigation r) (caption_text r)
    (link_text r) (link_url r).
Definition set_in_header (v : bool) (r : RoleInfo) : RoleInfo :=
  mkRoleInfo (is_decorative r) (is_functional r) (is_informative r)
    (has_caption r) (in_content r) v (in_navigation r) (caption_text r)
    (link_text r) (link_url r).
Definition set_in_navigation (v : bool) (r : RoleInfo) : RoleInfo :=
  mkRoleInfo (is_decorative r) (is_functional r) (is_informative r)
    (has_caption r) (in_content r) (in_header r) v (caption_text r)
    (link_text r) (link_url r).
Definition set_caption_text (v : string) (r : RoleInfo) : RoleInfo :=
  mkRoleInfo (is_decorative r) (is_functional r) (is_informative r)
    (has_caption r) (in_content r) (in_header r) (in_navigation r) v
    (link_text r) (link_url r).
Definition set_link_text (v : string) (r : RoleInfo) : RoleInfo :=
  mkRoleInfo (is_decorative r) (is_functional r) (is_informative r)
    (has_caption r) (in_content r) (in_header r) (in_navigation r)
    (caption_text r) (Some v) (link_url r).
Definition set_link_url (v : string) (r : RoleInfo) : RoleInfo :=
  mkRoleInfo (is_decorative r) (is_functional r) (is_informative r)
    (has_caption r) (in_content r) (in_header r) (in_navigation r)
    (caption_text r) (link_text r) (Some v).

(** The dictionary returned by [_get_surrounding_text]. *)
Record TextContext : Type := mkTextContext {
  before : string;
  after : string
}.

(** The value under the key [link] of an image's record. *)
Record Link : Type := mkLink {
  text : string;
  url : string
}.

(** The dictionary [image_data] of [extract_image_info].  The keys
    [title], [caption], [link] and [suggested_alt] exist only once they
    were assigned: [None] is a key that is not present.  The key [role]
    holds the role's name in the record that is returned, and the whole
    [role_info] in the copy handed to [generate_alt_text]. *)
Record ImageData (R : Type) : Type := mkImageData {
  src : string;
  existing_alt : string;
  role : R;
  context : TextContext;
  title : option string;
  caption : option string;
  link : option Link;
  suggested_alt : option string
}.
Arguments mkImageData {R}.
Arguments src {R}.
Arguments existing_alt {R}.
Arguments role {R}.
Arguments context {R}.
Arguments title {R}.
Arguments caption {R}.
Arguments link {R}.
Arguments suggested_alt {R}.

Definition set_title {R} (v : string) (d : ImageData R) : ImageData R :=
  mkImageData (src d) (existing_alt d) (role d) (context d) (Some v)
    (caption d) (link d) (suggested_alt d).
Definition set_caption {R} (v : string) (d : ImageData R) : ImageData R :=
  mkImageData (src d) (existing_alt d) (role d) (context d) (title d)
    (Some v) (link d) (suggested_alt d).
Definition set_link {R} (v : Link) (d : ImageData R) : ImageData R :=
  mkImageData (src d) (existing_alt d) (role d) (context d) (title d)
    (caption d) (Some v) (suggested_alt d).
Definition set_suggested_alt {R} (v : string) (d : ImageData R)
  : ImageData R :=
  mkImageData (src d) (existing_alt d) (role d) (context d) (title d)
    (caption d) (link d) (Some v).

(** [d2 = d.copy(); d2['role'] = v] *)
Definition copy_with_role {R R'} (v : R') (d : ImageData R) : ImageData R' :=
  mkImageData (src d) (existing_alt d) v (context d) (title d)
    (caption d) (link d) (suggested_alt d).

(** ** The context extractor *)

(** The denylist [code_patterns] of [is_valid_text]. *)
Definition code_patterns : list string :=
  [ "{"; "}"; "//"; "/*"; "*/"; "<script"; "<style"; "@media";
    "function("; "var "; "let "; "const "; ".css"; ".js"; "window.";
    "document." ].

(** The tags whose strings are never content. *)
Definition unwanted_tags : list string :=
  [ "script"; "style"; "code"; "noscript" ].

(** [is_valid_text(element)], on an element found in the document. *)
Definition is_valid_text (element : Located) : bool :=
  match string_of (Soup.element element) with
  | None => false
  | Some s =>
      if negb (Py.truthy s) then false
      else if match parent element with
              | Some p => is_tag_named unwanted_tags p
              | None => false
              end
      then false
      else
        let text := Py.strip s in
        if negb (Py.truthy text) then false
        else if existsb (fun pattern => Py.contains pattern text)
                        code_patterns
        then false
        else true
  end.

(** [current.strip()] for a string element. *)
Definition stripped (current : Located) : string :=
  Py.strip (default "" (string_of (element current))).

(** The first loop of [_get_surrounding_text].  [currents] is what
    [current] and the following calls of [find_previous(string=True)]
    yield; the empty list is [current] being [None]. *)
Fixpoint previous_loop (context_range : Z) (currents : list Located)
  (previous_text : list string) : list string :=
  match currents with
  | [] => previous_text
  | current :: rest =>
      if truthy (element current)
         && (Py.len (Py.join " " previous_text) <? context_range)%Z
      then
        previous_loop context_range rest
          (if is_valid_text current
           then stripped current :: previous_text
           else previous_text)
      else previous_text
  end.

(** The second loop, with [find_next(string=True)]. *)
Fixpoint next_loop (context_range : Z) (currents : list Located)
  (next_text : list string) : list string :=
  match currents with
  | [] => next_text
  | current :: rest =>
      if truthy (element current)
         && (Py.len (Py.join " " next_text) <? context_range)%Z
      then
        next_loop context_range rest
          (if is_valid_text current
           then next_text ++ [stripped current]
           else next_text)
      else next_text
  end.

Definition _get_surrounding_text (img_tag : Handle) (context_range : Z)
  : TextContext :=
  let previous_text :=
    previous_loop context_range (find_all_previous_strings img_tag) [] in
  let next_text :=
    next_loop context_range (find_all_next_strings img_tag) [] in
  {| before := Py.join " " previous_text;
     after := Py.join " " next_text |}.

(** The default value of the parameter [context_range]. *)
Definition default_context_range : Z := 100.

(** ** The role classifier *)

Definition is_Tag (o : option PageElement) : bool :=
  match o with Some _ => true | None => false end.

Definition _determine_image_role (img_tag : Handle) : RoleInfo :=
  let img := element (here img_tag) in
  let role_info :=
    {| is_decorative := false; is_functional := false;
       is_informative := false; has_caption := false;
       in_content := false; in_header := false; in_navigation := false;
       caption_text := ""; link_text := None; link_url := None |} in
  if Py.opt_eq (get img "role") "presentation"
     || Py.opt_eq (get img "aria-hidden") "true"
     || (negb (Py.opt_truthy (get img "alt"))
         && negb (is_Tag (find_parent img_tag ["a"])))
  then set_is_decorative true role_info
  else
    let parent_link := find_parent img_tag ["a"] in
    let role_info :=
      if is_Tag parent_link || is_Tag (find_parent img_tag ["button"])
      then
        let role_info := set_is_functional true role_info in
        match parent_link with
        | Some a =>
            set_link_url (get_default a "href" "")
              (set_link_text (get_text_strip a) role_info)
        | None => role_info
        end
      else role_info in
    let figure_parent := find_parent img_tag ["figure"] in
    let role_info :=
      match figure_parent with
      | Some figure =>
          match find figure "figcaption" with
          | Some figcaption =>
              set_caption_text (get_text_strip figcaption)
                (set_has_caption true role_info)
          | None => role_info
          end
      | None => role_info
      end in
    let role_info :=
      set_in_header (is_Tag (find_parent img_tag ["header"])) role_info in
    let role_info :=
      set_in_navigation (is_Tag (find_parent img_tag ["nav"])) role_info in
    let role_info :=
      set_in_content
        (is_Tag (find_parent img_tag ["article"; "main"; "section"]))
        role_info in
    if negb (is_decorative role_info || is_functional role_info)
    then set_is_informative true role_info
    else role_info.

(** ** The text-generation service and the generation path *)

(** What the body of the [try] in [generate_alt_text] comes to: the text
    of the first content block of the response, or an [Exception] [e]
    raised on the way, kept as [str(e)]. *)
Inductive Outcome : Type :=
| Returned (text : string)
| Raised (message : string).

(** One entry of [messages] in a request: the dictionary with the keys
    [role] and [content]. *)
Record Message : Type := mkMessage {
  message_role : string;
  content : string
}.

(** The keyword arguments of [messages.create]. *)
Record Request : Type := mkRequest {
  model : string;
  max_tokens : Z;
  messages : list Message
}.

Definition nl : string := String (ascii_of_nat 10) EmptyString.
Definition dquote : string := String (ascii_of_nat 34) EmptyString.

Section Generator.

(** The service behind [self.client.messages.create]: it answers a
    request from the state of the outside world, and changes it. *)
Variable World : Type.
Variable messages_create : Request -> World -> Outcome * World.

(** Python's [repr] on strings, used where the prompt prints the link
    dictionary. *)
Variable repr : string -> string.

(** The client: the world it talks to and the requests sent so far. *)
Record Client : Type := mkClient {
  world : World;
  requests : list Request
}.

(** Computations that may call the service. *)
Definition M (A : Type) : Type := Client -> A * Client.

Definition ret {A} (a : A) : M A := fun c => (a, c).

Definition bind {A B} (m : M A) (k : A -> M B) : M B :=
  fun c => let (a, c') := m c in k a c'.

Notation "'do' x <- m 'in' k" := (bind m (fun x => k))
  (at level 10, x name, m at level 100, k at level 200).

(** One call of [self.client.messages.create]. *)
Definition create (request : Request) : M Outcome :=
  fun c =>
    let (o, w) := messages_create request (world c) in
    (o, {| world := w; requests := requests c ++ [request] |}).

(** [str(d)] for the dictionary under [link]. *)
Definition str_link (l : Link) : string :=
  "{'text': " +:+ repr (text l) +:+ ", 'url': " +:+ repr (url l) +:+ "}".

Definition generate_alt_text (image_data : ImageData RoleInfo)
  : M string :=
  if is_decorative (role image_data) then ret ""
  else
    let context_role :=
      if is_functional (role image_data) then "functional"
      else "informative" in
    let context_existing_alt := existing_alt image_data in
    let context_title := default "" (title image_data) in
    let context_caption := caption_text (role image_data) in
    let context_before := before (context image_data) in
    let context_after := after (context image_data) in
    let context_link :=
      if is_functional (role image_data)
      then Some {| text := default "" (link_text (role image_data));
                   url := default "" (link_url (role image_data)) |}
      else None in
    let prompt :=
      Py.join nl
        [ "Given this image context, generate appropriate WCAG 2.1-compliant alt text:";
          "";
          "Image Role: " +:+ context_role;
          "Existing Alt: " +:+ context_existing_alt;
          "Title: " +:+ context_title;
          "Caption: " +:+ context_caption;
          "Link Info: " +:+
            match context_link with
            | Some l => str_link l
            | None => "Not a link"
            end;
          "Surrounding Text:";
          "- Before: " +:+ context_before;
          "- After: " +:+ context_after;
          "";
          "Generate alt text following these WCAG guidelines:";
          "1. If functional (in link/button), describe the action";
          "2. Be concise but descriptive";
          "3. Don't repeat information already visible in surrounding text";
          "4. Don't use phrases like " +:+ dquote +:+ "image of" +:+ dquote
            +:+ " or " +:+ dquote +:+ "picture of" +:+ dquote;
          "5. Focus on the purpose and meaning of the image";
          "6. Keep it under 125 characters when possible";
          "";
          "Alt text:" ] in
    do o <- create {| model := "claude-3-opus-20240229";
                      max_tokens := 150;
                      messages := [ {| message_role := "user";
                                       content := prompt |} ] |} in
    match o with
    | Returned text => ret (Py.strip text)
    | Raised e => ret ("Error generating alt text: " +:+ e)
    end.

(** ** The assembler *)

(** The body of the loop of [extract_image_info] for one image, up to
    the record that is appended to [images_data]. *)
Definition image_record (img : Handle) : M (ImageData string) :=
  let role_info := _determine_image_role img in
  let image_data :=
    {| src := get_default (element (here img)) "src" "";
       existing_alt := get_default (element (here img)) "alt" "";
       role := if is_decorative role_info then "decorative"
               else if is_functional role_info then "functional"
               else "informative";
       context := _get_surrounding_text img default_context_range;
       title := None; caption := None; link := None;
       suggested_alt := None |} in
  let title := Py.strip (get_default (element (here img)) "title" "") in
  let image_data :=
    if Py.truthy title then set_title title image_data
    else image_data in
  let image_data :=
    if Py.truthy (Py.strip (caption_text role_info))
    then set_caption (caption_text role_info) image_data
    else image_data in
  let image_data :=
    if is_functional role_info
       && Py.truthy (Py.strip (default "" (link_text role_info)))
    then
      match link_text role_info with
      | Some link_text =>
          set_link {| text := link_text;
                      url := default "" (link_url role_info) |}
            image_data
      | None => image_data
      end
    else image_data in
  let role_info_for_generation := role_info in
  let image_data_for_generation :=
    copy_with_role role_info_for_generation image_data in
  do suggested <- generate_alt_text image_data_for_generation in
  ret (set_suggested_alt suggested image_data).

(** The loop [for img in soup.find_all('img')]. *)
Fixpoint each_img (imgs : list Handle) (images_data : list (ImageData string))
  : M (list (ImageData string)) :=
  match imgs with
  | [] => ret images_data
  | img :: rest =>
      do image_data <- image_record img in
      each_img rest (images_data ++ [image_data])
  end.

(** [extract_image_info], from the parsed document [soup]. *)
Definition extract_image_info (soup : PageElement)
  : M (list (ImageData string)) :=
  each_img (find_all soup "img") [].

(** ** The run of the loop *)

(** The records that the loop appends, from a list of images and the
    client as it is when the loop reaches them. *)
Fixpoint records_from (imgs : list Handle) (c : Client)
  : list (ImageData string) :=
  match imgs with
  | [] => []
  | img :: rest =>
      fst (image_record img c) :: records_from rest (snd (image_record img c))
  end.

(** The client once the loop has gone through [imgs]. *)
Fixpoint client_after (imgs : list Handle) (c : Client)
  : Client :=
  match imgs with
  | [] => c
  | img :: rest => client_after rest (snd (image_record img c))
  end.

End Generator.

Arguments mkClient {World}.
Arguments world {World}.
Arguments requests {World}.
Arguments ret {World A}.
Arguments bind {World A B}.
Arguments create {World}.
Arguments generate_alt_text {World}.
Arguments image_record {World}.
Arguments each_img {World}.
Arguments extract_image_info {World}.
Arguments records_from {World}.
Arguments client_after {World}.

(** ** Definitions used to state the properties *)

(** The test of the first [if] of [_determine_image_role]. *)
Definition decorative_test (img_tag : Handle) : bool :=
  let img := element (here img_tag) in
  Py.opt_eq (get img "role") "presentation"
  || Py.opt_eq (get img "aria-hidden") "true"
  || (negb (Py.opt_truthy (get img "alt"))
      && negb (is_Tag (find_parent img_tag ["a"]))).

(** The record returned on the decorative path. *)
Definition decorative_only : RoleInfo :=
  {| is_decorative := true; is_functional := false;
     is_informative := false; has_caption := false;
     in_content := false; in_header := false; in_navigation := false;
     caption_text := ""; link_text := None; link_url := None |}.

(** The fragments of a walk that pass the filter, trimmed, in the order
    in which the walk meets them. *)
Definition qualifying (currents : list Located) : list string :=
  map stripped (List.filter is_valid_text currents).

(** A bounded accumulator that looks at its length only before it takes
    the next fragment, so after each one it has added: fragments are
    appended while the joined length is below the budget. *)
Fixpoint append_within (B : Z) (frags : list string) (acc : list string)
  : list string :=
  match frags with
  | [] => acc
  | f :: fs =>
      if (Py.len (Py.join " " acc) <? B)%Z
      then append_within B fs (acc ++ [f])
      else acc
  end.

(** The same accumulator, putting each fragment in front. *)
Fixpoint prepend_within (B : Z) (frags : list string) (acc : list string)
  : list string :=
  match frags with
  | [] => acc
  | f :: fs =>
      if (Py.len (Py.join " " acc) <? B)%Z
      then prepend_within B fs (f :: acc)
      else acc
  end.

(** [side] is what the accumulator makes of the fragments [frags] under
    the budget [B], [order] giving the order of a result from the order
    in which its fragments were taken: [side] joins a first part [taken]
    of the fragments with single blanks; it stops short of a fragment
    only once the joined length has reached the budget; and before the
    last fragment it took, the joined length was below the budget, so the
    result exceeds the budget by that fragment at most. *)
Definition gathered (B : Z) (order : list string -> list string)
  (frags : list string) (side : string) : Prop :=
  exists taken rest,
    frags = taken ++ rest
    /\ side = Py.join " " (order taken)
    /\ (rest = [] \/ (B <= Py.len side)%Z)
    /\ (forall p f, taken = p ++ [f] ->
          (Py.len (Py.join " " (order p)) < B)%Z
          /\ (Py.len side <= B + Py.len f)%Z).

(** The record of an image as it stands before the call of
    [generate_alt_text]: [image_data] after the three optional keys. *)
Definition assembled (img : Handle) : ImageData string :=
  let role_info := _determine_image_role img in
  let image_data :=
    {| src := get_default (element (here img)) "src" "";
       existing_alt := get_default (element (here img)) "alt" "";
       role := if is_decorative role_info then "decorative"
               else if is_functional role_info then "functional"
               else "informative";
       context := _get_surrounding_text img default_context_range;
       title := None; caption := None; link := None;
       suggested_alt := None |} in
  let title := Py.strip (get_default (element (here img)) "title" "") in
  let image_data :=
    if Py.truthy title then set_title title image_data else image_data in
  let image_data :=
    if Py.truthy (Py.strip (caption_text role_info))
    then set_caption (caption_text role_info) image_data
    else image_data in
  if is_functional role_info
     && Py.truthy (Py.strip (default "" (link_text role_info)))
  then
    match link_text role_info with
    | Some link_text =>
        set_link {| text := link_text;
                    url := default "" (link_url role_info) |}
          image_data
    | None => image_data
    end
  else image_data.

(** What [generate_alt_text] returns for an outcome of the call. *)
Definition description (o : Outcome) : string :=
  match o with
  | Returned text => Py.strip text
  | Raised e => "Error generating alt text: " +:+ e
  end.

(** ** Example documents *)

(** An attribute dictionary from its pairs. *)
Definition attributes (l : list (string * string)) : gmap string string :=
  list_to_map l.

(** The image tags that [find_all] returns on a document. *)
Definition images (soup : PageElement) : list Handle := find_all soup "img".

(** The first image of a document (an empty handle when it has none). *)
Definition first_image (soup : PageElement) : Handle :=
  List.hd (mkHandle [] (mkLocated (Comment "") []) []) (images soup).

(** Image [i] of a document (an empty handle when there is none). *)
Definition image_at (soup : PageElement) (i : nat) : Handle :=
  List.nth i (images soup) (mkHandle [] (mkLocated (Comment "") []) []).

(** A hidden image with alternative text, inside a link, a figure with a
    caption, a header and a navigation block. *)
Definition hidden_logo_page : PageElement :=
  BeautifulSoup
    [ Tag "header" ∅
        [ Tag "nav" ∅
            [ Tag "figure" ∅
                [ Tag "a" (attributes [("href", "/home")])
                    [ Tag "img"
                        (attributes [("src", "logo.png"); ("alt", "Logo");
                                     ("aria-hidden", "true")]) [];
                      NavigableString "Home" ];
                  Tag "figcaption" ∅ [ NavigableString "Our logo" ] ] ] ] ].

(** An image without alternative text inside a link. *)
Definition linked_icon_page : PageElement :=
  BeautifulSoup
    [ Tag "a" (attributes [("href", "/cart")])
        [ Tag "img" (attributes [("src", "cart.png"); ("alt", "")]) [] ] ].

(** An image whose alternative text is one blank, on its own in a
    paragraph. *)
Definition blank_alt_page : PageElement :=
  BeautifulSoup
    [ Tag "p" ∅
        [ Tag "img" (attributes [("src", "dot.png"); ("alt", " ")]) [] ] ].

(** A page about a garden: around its image, paragraphs of forty
    characters each, a style sheet, a script and white space. *)
Definition garden_page : PageElement :=
  BeautifulSoup
    [ Tag "p" ∅ [ NavigableString "Dogs are welcome if they stay on a lead." ];
      Tag "p" ∅ [ NavigableString "Our garden opens to visitors each spring" ];
      Tag "style" ∅ [ NavigableString "p { margin: 0 }" ];
      Tag "p" ∅
        [ NavigableString "  Tickets are sold at the gate until noon.  " ];
      NavigableString " ";
      Tag "p" ∅ [ NavigableString "Guided walks leave the old mill at four." ];
      Tag "img" (attributes [("src", "garden.jpg"); ("alt", "The garden")]) [];
      Tag "p" ∅ [ NavigableString "The tea room serves cakes from ten to 4." ];
      Tag "script" ∅ [ NavigableString "var opened = true;" ];
      Tag "p" ∅ [ NavigableString "Parking is free for members of the club." ];
      Comment "";
      Tag "p" ∅ [ NavigableString "Maps of the paths are sold in the shop.." ];
      Tag "p" ∅ [ NavigableString "The garden closes at dusk." ] ].

(** A chart in a figure whose caption element is empty. *)
Definition empty_caption_page : PageElement :=
  BeautifulSoup
    [ Tag "figure" ∅
        [ Tag "img" (attributes [("src", "chart.png"); ("alt", "Sales")]) [];
          Tag "figcaption" ∅ [] ] ].

(** A photograph in a figure with a caption. *)
Definition captioned_page : PageElement :=
  BeautifulSoup
    [ Tag "figure" ∅
        [ Tag "img" (attributes [("src", "mill.jpg"); ("alt", "Mill")]) [];
          Tag "figcaption" ∅
            [ NavigableString " The old mill "; Tag "em" ∅
                [ NavigableString "in May" ] ] ] ].

(** A cart icon in a link whose only text is white space, with a title
    attribute of blanks. *)
Definition blank_link_page : PageElement :=
  BeautifulSoup
    [ Tag "a" (attributes [("href", "/cart")])
        [ NavigableString " ";
          Tag "img" (attributes [("src", "cart.png"); ("alt", "Cart");
                                 ("title", "   ")]) [];
          NavigableString " " ] ].

(** Three images: a photograph, a hidden spacer and a linked icon. *)
Definition gallery_page : PageElement :=
  BeautifulSoup
    [ Tag "p" ∅ [ NavigableString "Welcome" ];
      Tag "img" (attributes [("src", "mill.jpg"); ("alt", "Mill")]) [];
      Tag "img" (attributes [("src", "gap.gif"); ("role", "presentation")]) [];
      Tag "a" (attributes [("href", "/shop")])
        [ Tag "img" (attributes [("src", "bag.png"); ("alt", "Bag")]) [];
          NavigableString "Shop" ] ].

(** A service that counts its calls: the first one fails, the others
    answer. *)
Definition failing_first (request : Request) (calls : nat)
  : Outcome * nat :=
  (match calls with
   | O => Raised "overloaded"
   | S _ => Returned " A short description. "
   end, S calls).

(** A stand-in for [repr]: the string between single quotes. *)
Definition quoted (s : string) : string := "'" +:+ s +:+ "'".

(** A client that has sent nothing yet. *)
Definition fresh_client : Client nat := mkClient 0 [].

(** The record of the cart icon when the service fails. *)
Definition blank_link_record : ImageData string :=
  {| src := "cart.png"; existing_alt := "Cart"; role := "functional";
     context := {| before := ""; after := "" |};
     title := None; caption := None; link := None;
     suggested_alt := Some "Error generating alt text: overloaded" |}.

(** ** Fetching a page and naming the report *)

(** [s.replace(old, new)] for an [old] that is not empty: the
    occurrences of [old] are replaced from the left, each search going on
    after the occurrence before it.  [skip] counts the characters of an
    occurrence that are still to be passed over. *)
Fixpoint replace_from (old new : string) (skip : nat) (s : string)
  : string :=
  match s with
  | EmptyString => EmptyString
  | String c s' =>
      match skip with
      | S k => replace_from old new k s'
      | O =>
          if Py.startswith old s
          then new +:+ replace_from old new (Nat.pred (String.length old)) s'
          else String c (replace_from old new 0 s')
      end
  end.

(** [new] after every character of [s]. *)
Fixpoint follow_each (new s : string) : string :=
  match s with
  | EmptyString => EmptyString
  | String c s' => String c (new +:+ follow_each new s')
  end.

(** [s.replace(old, new)]; with an empty [old], [new] goes before the
    first character and after every character. *)
Definition str_replace (old new s : string) : string :=
  match old with
  | EmptyString => new +:+ follow_each new s
  | String _ _ => replace_from old new 0 s
  end.

(** The local [safe_url] of [save_to_json]. *)
Definition safe_url (url : string) : string :=
  str_replace "/" "_"
    (str_replace "http://" "" (str_replace "https://" "" url)).

(** The name that [save_to_json] opens and returns, [timestamp] being
    what [datetime.now().strftime('%Y%m%d_%H%M%S')] gave. *)
Definition filename (url timestamp : string) : string :=
  "output/image_analysis_" +:+ safe_url url +:+ "_" +:+ timestamp
  +:+ ".json".

(** What the body of the [try] of [fetch_page_content] comes to: the
    text of the response, a [requests.RequestException] raised by
    [requests.get] or by [raise_for_status], or an [Exception] of
    another class; exceptions are kept as [str(e)]. *)
Inductive Fetched : Type :=
| Page (text : string)
| RequestException (message : string)
| OtherException (message : string).

(** A call that returns a value or raises an [Exception] whose [str] is
    [message]. *)
Inductive Result (A : Type) : Type :=
| Returns (a : A)
| Raises (message : string).
Arguments Returns {A}.
Arguments Raises {A}.

Section Pipeline.

Variable World : Type.
Variable messages_create : Request -> World -> Outcome * World.
Variable repr : string -> string.

(** The network behind [requests.get(url, headers=headers)]. *)
Variable Net : Type.
Variable requests_get :
  string -> gmap string string -> Net -> Fetched * Net.

(** [BeautifulSoup(html_content, 'html.parser')]: the document, or the
    exception with which the parser gives up. *)
Variable html_parser : string -> Result PageElement.

Definition fetch_page_content (url : string) (net : Net)
  : Result string * Net :=
  let headers : gmap string string :=
    {[ "User-Agent" := "Mozilla/5.0 (compatible; WCAGAltTextBot/1.0)" ]} in
  let (fetched, net') := requests_get url headers net in
  (match fetched with
   | Page text => Returns text
   | RequestException e => Raises ("Error fetching URL: " +:+ e)
   | OtherException e => Raises e
   end, net').

(** [process_url]: the network and the client go in and come out. *)
Definition process_url (url : string) (net : Net) (c : Client World)
  : Result (list (ImageData string)) * Net * Client World :=
  let (fetched, net') := fetch_page_content url net in
  match fetched with
  | Returns html_content =>
      match html_parser html_content with
      | Returns soup =>
          let (images_data, c') :=
            extract_image_info messages_create repr soup c in
          (Returns images_data, net', c')
      | Raises e => (Raises ("Error processing URL: " +:+ e), net', c)
      end
  | Raises e => (Raises ("Error processing URL: " +:+ e), net', c)
  end.

End Pipeline.

Arguments fetch_page_content {Net}.
Arguments process_url {World} _ _ {Net}.

(** The request of [generate_alt_text] around a prompt. *)
Definition request_with (prompt : string) : Request :=
  {| model := "claude-3-opus-20240229";
     max_tokens := 150;
     messages := [ {| message_role := "user"; content := prompt |} ] |}.

(** An image in a figure without caption, inside a figure that has
    one. *)
Definition nested_figures_page : PageElement :=
  BeautifulSoup
    [ Tag "figure" ∅
        [ Tag "figure" ∅
            [ Tag "img" (attributes [("src", "mill.jpg"); ("alt", "Mill")])
                [] ];
          Tag "figcaption" ∅ [ NavigableString "Cap" ] ] ].

(** ** More example documents *)

(** A photograph in the header, the navigation block and the article of a
    page at once. *)
Definition banner_page : PageElement :=
  BeautifulSoup
    [ Tag "article" ∅
        [ Tag "header" ∅
            [ Tag "nav" ∅
                [ Tag "img"
                    (attributes [("src", "mill.jpg"); ("alt", "Mill")])
                    [] ] ] ] ].

(** An icon without alternative text in a button. *)
Definition button_icon_page : PageElement :=
  BeautifulSoup
    [ Tag "button" ∅
        [ Tag "img" (attributes [("src", "close.png")]) [];
          NavigableString "Close" ] ].

(** An icon with alternative text in a button. *)
Definition labelled_button_page : PageElement :=
  BeautifulSoup
    [ Tag "button" ∅
        [ Tag "img" (attributes [("src", "close.png"); ("alt", "Close")])
            [] ] ].

(** The record of the linked icon of the gallery, the service having
    failed once before. *)
Definition shop_record : ImageData string :=
  {| src := "bag.png"; existing_alt := "Bag"; role := "functional";
     context := {| before := "Welcome"; after := "Shop" |};
     title := None; caption := None;
     link := Some {| text := "Shop"; url := "/shop" |};
     suggested_alt := Some "A short description." |}.

(** A network on which every request is refused; it counts the
    requests. *)
Definition offline (url : string) (headers : gmap string string)
  (tries : nat) : Fetched * nat :=
  (RequestException "connection refused", S tries).

(** A parser that knows one page. *)
Definition gallery_parser (html_content : string) : Result PageElement :=
  Returns gallery_page.

(** ** Facts about the Python operations *)

Lemma opt_eq_true (a : option string) (b : string) :
  Py.opt_eq a b = true <-> a = Some b.
Proof.
  destruct a as [x|]; simpl.
  - unfold Py.eq. rewrite String.eqb_eq. split; congruence.
  - split; discriminate.
Qed.

Lemma opt_eq_false (a : option string) (b : string) :
  Py.opt_eq a b = false <-> a <> Some b.
Proof.
  rewrite <- opt_eq_true. destruct (Py.opt_eq a b); split; congruence.
Qed.

Lemma truthy_false (s : string) : Py.truthy s = false <-> s = "".
Proof. destruct s; simpl; split; congruence. Qed.

Lemma truthy_true (s : string) : Py.truthy s = true <-> s <> "".
Proof. destruct s; simpl; split; congruence. Qed.

Lemma opt_truthy_false (a : option string) :
  Py.opt_truthy a = false <-> a = None \/ a = Some "".
Proof.
  destruct a as [x|]; simpl.
  - rewrite truthy_false. split.
    + intros ->. now right.
    + intros [H|H]; congruence.
  - split; auto.
Qed.

Lemma is_Tag_false (o : option PageElement) : is_Tag o = false <-> o = None.
Proof. destruct o; simpl; split; congruence. Qed.

(** ** The role classifier *)

Lemma role_when_decorative (img_tag : Handle) :
  decorative_test img_tag = true ->
  _determine_image_role img_tag = decorative_only.
Proof.
  unfold decorative_test, _determine_image_role. cbv zeta.
  intros ->. reflexivity.
Qed.

(** Breaks the classifier into its paths past the decorative test
    [Htest]: the anchor, the button, the figure and its caption. *)
Ltac classifier_paths img_tag Htest :=
  unfold _determine_image_role; cbv zeta; rewrite Htest;
  destruct (find_parent img_tag ["a"]) as [anchor|];
  destruct (find_parent img_tag ["button"]) as [button|];
  destruct (find_parent img_tag ["figure"]) as [figure|];
  try destruct (find figure "figcaption") as [figcaption|] eqn:Hcaption;
  cbn.

(** The role information on the path that is not decorative, key by
    key. *)
Lemma role_when_not_decorative (img_tag : Handle) :
  decorative_test img_tag = false ->
  _determine_image_role img_tag
  = let parent_link := find_parent img_tag ["a"] in
    let figcaption :=
      figure ← find_parent img_tag ["figure"]; find figure "figcaption" in
    {| is_decorative := false;
       is_functional :=
         is_Tag parent_link || is_Tag (find_parent img_tag ["button"]);
       is_informative :=
         negb (is_Tag parent_link
               || is_Tag (find_parent img_tag ["button"]));
       has_caption := is_Tag figcaption;
       in_content :=
         is_Tag (find_parent img_tag ["article"; "main"; "section"]);
       in_header := is_Tag (find_parent img_tag ["header"]);
       in_navigation := is_Tag (find_parent img_tag ["nav"]);
       caption_text := default "" (get_text_strip <$> figcaption);
       link_text := get_text_strip <$> parent_link;
       link_url := (fun a => get_default a "href" "") <$> parent_link |}.
Proof.
  unfold decorative_test. cbv zeta. intros Htest.
  classifier_paths img_tag Htest; rewrite ?Hcaption; reflexivity.
Qed.

Lemma flags_when_not_decorative (img_tag : Handle) :
  decorative_test img_tag = false ->
  let r := _determine_image_role img_tag in
  is_decorative r = false
  /\ is_functional r
     = is_Tag (find_parent img_tag ["a"])
       || is_Tag (find_parent img_tag ["button"])
  /\ is_informative r = negb (is_functional r).
Proof.
  intros Htest. cbv zeta.
  rewrite (role_when_not_decorative img_tag Htest). cbn. auto.
Qed.

Lemma decorative_iff_test (img_tag : Handle) :
  is_decorative (_determine_image_role img_tag) = decorative_test img_tag.
Proof.
  destruct (decorative_test img_tag) eqn:Htest.
  - now rewrite role_when_decorative.
  - now destruct (flags_when_not_decorative img_tag Htest) as [-> _].
Qed.

(** C1: for every image node the role information has exactly one of the
    flags decorative, functional and informative set: the decorative path
    returns before the functional test is made, and the informative flag
    is set exactly when neither of the other two was. *)
Theorem C1_exactly_one_role_flag (img_tag : Handle) :
  let r := _determine_image_role img_tag in
  ((is_decorative r = true /\ is_functional r = false
    /\ is_informative r = false)
   \/ (is_decorative r = false /\ is_functional r = true
       /\ is_informative r = false)
   \/ (is_decorative r = false /\ is_functional r = false
       /\ is_informative r = true))
  /\ is_informative r = negb (is_decorative r || is_functional r).
Proof.
  cbv zeta. destruct (decorative_test img_tag) eqn:Htest.
  - rewrite (role_when_decorative _ Htest). cbn. auto.
  - destruct (flags_when_not_decorative img_tag Htest) as (Hd & Hf & Hi).
    rewrite Hd, Hi. cbn.
    destruct (is_functional (_determine_image_role img_tag)); cbn; auto 6.
Qed.

(** C2: an image is classified decorative exactly when its role attribute
    is presentation, or its aria-hidden attribute is true, or its alt
    attribute is empty or absent and no anchor encloses it.  So a hidden
    image is decorative whatever its other attributes, and an image with
    no alternative text inside an anchor is not decorative by the third
    rule: it goes on to the functional test, which the anchor passes. *)
Theorem C2_decorative_rule (img_tag : Handle) :
  let img := element (here img_tag) in
  let r := _determine_image_role img_tag in
  (is_decorative r = true <->
     get img "role" = Some "presentation"
     \/ get img "aria-hidden" = Some "true"
     \/ ((get img "alt" = None \/ get img "alt" = Some "")
         /\ find_parent img_tag ["a"] = None))
  /\ (get img "aria-hidden" = Some "true" -> is_decorative r = true)
  /\ (get img "role" <> Some "presentation" ->
      get img "aria-hidden" <> Some "true" ->
      (get img "alt" = None \/ get img "alt" = Some "") ->
      find_parent img_tag ["a"] <> None ->
      is_decorative r = false /\ is_functional r = true).
Proof.
  cbv zeta.
  assert (Hrule :
    is_decorative (_determine_image_role img_tag) = true <->
    get (element (here img_tag)) "role" = Some "presentation"
    \/ get (element (here img_tag)) "aria-hidden" = Some "true"
    \/ ((get (element (here img_tag)) "alt" = None
         \/ get (element (here img_tag)) "alt" = Some "")
        /\ find_parent img_tag ["a"] = None)).
  { rewrite decorative_iff_test. unfold decorative_test. cbv zeta.
    rewrite !orb_true_iff, andb_true_iff, !negb_true_iff.
    rewrite !opt_eq_true, opt_truthy_false, is_Tag_false. tauto. }
  split; [exact Hrule|]. split.
  - intros Hhidden. apply Hrule. auto.
  - intros Hrole Hhidden Halt Hanchor.
    assert (Hd : is_decorative (_determine_image_role img_tag) = false).
    { apply not_true_is_false. intros E.
      apply Hrule in E. destruct E as [E|[E|[_ E]]]; contradiction. }
    split; [exact Hd|].
    rewrite decorative_iff_test in Hd.
    destruct (flags_when_not_decorative img_tag Hd) as (_ & -> & _).
    destruct (find_parent img_tag ["a"]); [reflexivity|contradiction].
Qed.

(** The hidden logo has alternative text and stands inside an anchor, and
    is decorative all the same. *)
Example hidden_image_in_anchor_is_decorative :
  let img_tag := first_image hidden_logo_page in
  get (element (here img_tag)) "alt" = Some "Logo"
  /\ is_Tag (find_parent img_tag ["a"]) = true
  /\ is_decorative (_determine_image_role img_tag) = true.
Proof. vm_compute. auto. Qed.

(** The cart icon has an empty alt attribute and an enclosing anchor: it
    is functional. *)
Example empty_alt_in_anchor_is_functional :
  let r := _determine_image_role (first_image linked_icon_page) in
  is_decorative r = false /\ is_functional r = true
  /\ is_informative r = false.
Proof. vm_compute. auto. Qed.

(** C8: when an image is decorative the classifier returns at once: only
    the decorative flag is set, the caption and location flags are false,
    the caption text is empty, and there is no link text or link URL. *)
Theorem C8_decorative_stops_classification (img_tag : Handle) :
  is_decorative (_determine_image_role img_tag) = true ->
  _determine_image_role img_tag
  = {| is_decorative := true; is_functional := false;
       is_informative := false; has_caption := false;
       in_content := false; in_header := false; in_navigation := false;
       caption_text := ""; link_text := None; link_url := None |}.
Proof.
  rewrite decorative_iff_test. intros Htest.
  exact (role_when_decorative img_tag Htest).
Qed.

(** The hidden logo stands in a link, a captioned figure, a header and a
    navigation block; none of that is recorded. *)
Lemma C8_witness :
  is_Tag (find_parent (first_image hidden_logo_page) ["header"]) = true
  /\ is_Tag (find_parent (first_image hidden_logo_page) ["figure"]) = true
  /\ _determine_image_role (first_image hidden_logo_page)
     = {| is_decorative := true; is_functional := false;
          is_informative := false; has_caption := false;
          in_content := false; in_header := false; in_navigation := false;
          caption_text := ""; link_text := None; link_url := None |}.
Proof.
  split; [vm_compute; reflexivity|].
  split; [vm_compute; reflexivity|].
  apply (C8_decorative_stops_classification (first_image hidden_logo_page)).
  vm_compute. reflexivity.
Defined.

(** C10: when the role attribute is not presentation and the aria-hidden
    attribute is not true, an alt attribute made only of white space
    counts as present: the test is on the attribute as written, nothing is
    trimmed.  The image is not decorative, and with no enclosing anchor or
    button it is informative. *)
Theorem C10_blank_alt_counts_as_present (img_tag : Handle) (alt : string) :
  get (element (here img_tag)) "role" <> Some "presentation" ->
  get (element (here img_tag)) "aria-hidden" <> Some "true" ->
  get (element (here img_tag)) "alt" = Some alt ->
  alt <> "" ->
  Py.strip alt = "" ->
  let r := _determine_image_role img_tag in
  is_decorative r = false
  /\ (find_parent img_tag ["a"] = None ->
      find_parent img_tag ["button"] = None ->
      is_informative r = true /\ is_functional r = false).
Proof.
  intros Hrole Hhidden Halt Hne _. cbv zeta.
  assert (Htest : decorative_test img_tag = false).
  { unfold decorative_test. cbv zeta. rewrite Halt.
    apply opt_eq_false in Hrole, Hhidden. rewrite Hrole, Hhidden.
    apply truthy_true in Hne. cbn. now rewrite Hne. }
  destruct (flags_when_not_decorative img_tag Htest) as (Hd & Hf & Hi).
  split; [exact Hd|].
  intros Ha Hb. rewrite Hi, Hf, Ha, Hb. auto.
Qed.

Lemma C10_witness :
  let r := _determine_image_role (first_image blank_alt_page) in
  get (element (here (first_image blank_alt_page))) "alt" = Some " "
  /\ is_decorative r = false /\ is_informative r = true.
Proof.
  cbv zeta. split; [vm_compute; reflexivity|].
  assert (H := C10_blank_alt_counts_as_present
                 (first_image blank_alt_page) " ").
  cbv zeta in H.
  destruct H as [Hd Hi].
  - vm_compute. discriminate.
  - vm_compute. discriminate.
  - vm_compute. reflexivity.
  - discriminate.
  - vm_compute. reflexivity.
  - split; [exact Hd|].
    apply Hi; vm_compute; reflexivity.
Defined.

(** ** The filter of the context extractor *)

Lemma startswith_spec (p s : string) :
  Py.startswith p s = true <-> exists b, s = p +:+ b.
Proof.
  revert s. induction p as [|a p IH]; intros s; simpl.
  - split; eauto.
  - destruct s as [|c s].
    + split; [discriminate|]. intros [b Hb]. discriminate.
    + rewrite andb_true_iff, Ascii.eqb_eq, IH. split.
      * intros [-> [b ->]]. now exists b.
      * intros [b Hb]. injection Hb as -> ->. eauto.
Qed.

Lemma contains_spec (p s : string) :
  Py.contains p s = true <-> exists a b, s = a +:+ p +:+ b.
Proof.
  induction s as [|c s IH]; simpl.
  - rewrite orb_false_r, startswith_spec. split.
    + intros [b Hb]. now exists "", b.
    + intros [a [b Hab]]. destruct a; [now exists b|discriminate].
  - rewrite orb_true_iff, startswith_spec, IH. split.
    + intros [[b Hb]|[a [b Hab]]].
      * now exists "", b.
      * exists (String c a), b. simpl. now rewrite Hab.
    + intros [a [b Hab]]. destruct a as [|c' a]; simpl in Hab.
      * left. now exists b.
      * right. injection Hab as _ ->. now exists a, b.
Qed.

Lemma is_tag_named_spec (names : list string) (e : PageElement) :
  is_tag_named names e = true
  <-> exists name, name_of e = Some name /\ In name names.
Proof.
  destruct e as [s|s|n a cs]; simpl.
  - split; [discriminate|]. intros (? & ? & _). discriminate.
  - split; [discriminate|]. intros (? & ? & _). discriminate.
  - rewrite existsb_exists. unfold Py.eq. split.
    + intros (x & Hin & Heq). apply String.eqb_eq in Heq. subst. eauto.
    + intros (x & Hx & Hin). injection Hx as ->.
      exists x. split; [exact Hin|apply String.eqb_refl].
Qed.

(** C4: a text fragment is left out of the context exactly when it is
    empty after trimming, or its parent element is a script, style, code
    or noscript tag, or its trimmed content contains one of the sixteen
    substrings of the denylist. *)
Theorem C4_excluded_fragments (fragment : Located) (s : string) :
  string_of (element fragment) = Some s ->
  (is_valid_text fragment = false <->
     Py.strip s = ""
     \/ (exists p name,
           parent fragment = Some p /\ name_of p = Some name
           /\ In name ["script"; "style"; "code"; "noscript"])
     \/ (exists pattern,
           In pattern
             [ "{"; "}"; "//"; "/*"; "*/"; "<script"; "<style"; "@media";
               "function("; "var "; "let "; "const "; ".css"; ".js";
               "window."; "document." ]
           /\ exists a b, Py.strip s = a +:+ pattern +:+ b)).
Proof.
  intros Hs. unfold is_valid_text. rewrite Hs.
  change ["script"; "style"; "code"; "noscript"] with unwanted_tags.
  match goal with
  | |- context [In _ ?l /\ _] => change l with code_patterns
  end.
  assert (Hparent :
    match parent fragment with
    | Some p => is_tag_named unwanted_tags p
    | None => false
    end = true
    <-> exists p name, parent fragment = Some p /\ name_of p = Some name
                       /\ In name unwanted_tags).
  { destruct (parent fragment) as [p|].
    - rewrite is_tag_named_spec. split.
      + intros (name & Hn & Hin). now exists p, name.
      + intros (p' & name & Hp & Hn & Hin). injection Hp as <-. eauto.
    - split; [discriminate|]. intros (? & ? & ? & _). discriminate. }
  assert (Hpattern :
    existsb (fun pattern => Py.contains pattern (Py.strip s)) code_patterns
    = true
    <-> exists pattern, In pattern code_patterns
          /\ exists a b, Py.strip s = a +:+ pattern +:+ b).
  { rewrite existsb_exists. split.
    - intros (x & Hin & Hc). apply contains_spec in Hc. eauto.
    - intros (x & Hin & Hc). apply contains_spec in Hc. eauto. }
  assert (Hempty : Py.truthy s = false -> Py.strip s = "").
  { intros H. apply truthy_false in H. now subst. }
  assert (Hstrip := truthy_false (Py.strip s)).
  revert Hparent Hpattern Hempty Hstrip.
  generalize (match parent fragment with
              | Some p => is_tag_named unwanted_tags p
              | None => false
              end) as in_unwanted.
  generalize (existsb (fun pattern => Py.contains pattern (Py.strip s))
                code_patterns) as has_pattern.
  generalize (Py.truthy (Py.strip s)) as has_text.
  generalize (Py.truthy s) as not_empty.
  intros [|] [|] [|] [|]; cbn; intuition congruence.
Qed.

(** A line of a style sheet that reads like prose, in a paragraph. *)
Lemma C4_witness :
  let fragment :=
    mkLocated (NavigableString "margin: 10px; /* comment */")
      [ Tag "p" ∅ []; BeautifulSoup [] ] in
  is_valid_text fragment = false.
Proof.
  cbv zeta.
  apply (C4_excluded_fragments
           (mkLocated (NavigableString "margin: 10px; /* comment */")
              [ Tag "p" ∅ []; BeautifulSoup [] ])
           "margin: 10px; /* comment */").
  - reflexivity.
  - right. right. exists "/*". split.
    + simpl. auto 10.
    + exists "margin: 10px; ", " comment */". reflexivity.
Defined.

(** The denylist is matched against the trimmed text: a fragment that ends
    in the word let and a blank is kept. *)
Example trailing_keyword_is_kept :
  is_valid_text (mkLocated (NavigableString "Please let ")
                   [ Tag "p" ∅ []; BeautifulSoup [] ]) = true.
Proof. reflexivity. Qed.

(** ** The context extractor and its budget *)

Lemma length_append (s1 s2 : string) :
  String.length (s1 +:+ s2) = String.length s1 + String.length s2.
Proof. induction s1 as [|c s1 IH]; simpl; [reflexivity|now rewrite IH]. Qed.

Lemma append_assoc (s1 s2 s3 : string) :
  (s1 +:+ s2) +:+ s3 = s1 +:+ s2 +:+ s3.
Proof.
  induction s1 as [|c s1 IH]; [reflexivity|].
  change (String c ((s1 +:+ s2) +:+ s3) = String c (s1 +:+ s2 +:+ s3)).
  now rewrite IH.
Qed.

Lemma join_cons (sep f : string) (l : list string) :
  Py.join sep (f :: l)
  = match l with [] => f | _ :: _ => f +:+ sep +:+ Py.join sep l end.
Proof. destruct l; reflexivity. Qed.

Lemma join_snoc (sep f : string) (l : list string) :
  Py.join sep (l ++ [f])
  = match l with [] => f | _ :: _ => Py.join sep l +:+ sep +:+ f end.
Proof.
  induction l as [|x l IH]; [reflexivity|].
  change ((x :: l) ++ [f]) with (x :: (l ++ [f])).
  rewrite join_cons. destruct l as [|y l].
  - reflexivity.
  - change ((y :: l) ++ [f]) with (y :: (l ++ [f])) in *.
    rewrite IH. rewrite (join_cons sep x (y :: l)).
    now rewrite !append_assoc.
Qed.

Lemma len_join_cons (f : string) (l : list string) :
  (Py.len (Py.join " " (f :: l)) <= Py.len (Py.join " " l) + 1 + Py.len f)%Z.
Proof.
  rewrite join_cons. unfold Py.len. destruct l as [|x l].
  - simpl (Py.join " " []). simpl String.length. lia.
  - rewrite !length_append. simpl (String.length " "). lia.
Qed.

Lemma len_join_snoc (f : string) (l : list string) :
  (Py.len (Py.join " " (l ++ [f])) <= Py.len (Py.join " " l) + 1 + Py.len f)%Z.
Proof.
  rewrite join_snoc. unfold Py.len. destruct l as [|x l].
  - simpl (Py.join " " []). simpl String.length. lia.
  - rewrite !length_append. simpl (String.length " "). lia.
Qed.

Lemma strings_found_are_true (l : list Located) :
  Forall (fun x => truthy (element x) = true) (List.filter is_string l).
Proof.
  apply Forall_forall. intros x Hx.
  apply list_elem_of_In, filter_In in Hx. destruct Hx as [_ Hx].
  unfold is_string in Hx. now destruct (string_of (element x)).
Qed.

Lemma append_within_full (B : Z) (frags acc : list string) :
  (Py.len (Py.join " " acc) <? B)%Z = false ->
  append_within B frags acc = acc.
Proof. intros H. destruct frags; simpl; [reflexivity|now rewrite H]. Qed.

Lemma prepend_within_full (B : Z) (frags acc : list string) :
  (Py.len (Py.join " " acc) <? B)%Z = false ->
  prepend_within B frags acc = acc.
Proof. intros H. destruct frags; simpl; [reflexivity|now rewrite H]. Qed.

(** The loops see the walk only through its qualifying fragments. *)
Lemma next_loop_qualifying (B : Z) (currents : list Located) :
  Forall (fun x => truthy (element x) = true) currents ->
  forall next_text,
    next_loop B currents next_text
    = append_within B (qualifying currents) next_text.
Proof.
  induction 1 as [|current rest Htrue _ IH]; intros next_text.
  - reflexivity.
  - simpl next_loop. rewrite Htrue. cbn [andb].
    destruct (Py.len (Py.join " " next_text) <? B)%Z eqn:Hlen.
    + unfold qualifying. simpl List.filter.
      destruct (is_valid_text current).
      * simpl. rewrite Hlen. apply IH.
      * apply IH.
    + now rewrite append_within_full.
Qed.

Lemma previous_loop_qualifying (B : Z) (currents : list Located) :
  Forall (fun x => truthy (element x) = true) currents ->
  forall previous_text,
    previous_loop B currents previous_text
    = prepend_within B (qualifying currents) previous_text.
Proof.
  induction 1 as [|current rest Htrue _ IH]; intros previous_text.
  - reflexivity.
  - simpl previous_loop. rewrite Htrue. cbn [andb].
    destruct (Py.len (Py.join " " previous_text) <? B)%Z eqn:Hlen.
    + unfold qualifying. simpl List.filter.
      destruct (is_valid_text current).
      * simpl. rewrite Hlen. apply IH.
      * apply IH.
    + now rewrite prepend_within_full.
Qed.

Lemma append_within_gathered (B : Z) (frags : list string) :
  forall acc, exists taken rest,
    frags = taken ++ rest
    /\ append_within B frags acc = acc ++ taken
    /\ (rest = [] \/ (B <= Py.len (Py.join " " (acc ++ taken)))%Z)
    /\ (forall p f, taken = p ++ [f] ->
          (Py.len (Py.join " " (acc ++ p)) < B)%Z).
Proof.
  induction frags as [|x fs IH]; intros acc.
  - exists [], [].
    split; [reflexivity|]. split; [now rewrite app_nil_r|].
    split; [now left|].
    intros [|? ?] f H; discriminate.
  - simpl. destruct (Py.len (Py.join " " acc) <? B)%Z eqn:Hlen.
    + destruct (IH (acc ++ [x])) as (taken & rest & Hfs & Hres & Hstop & Hlast).
      exists (x :: taken), rest.
      rewrite <- app_assoc in Hres, Hstop. simpl in Hres, Hstop.
      repeat split; auto.
      * simpl. now rewrite Hfs.
      * intros [|y p] f Hp; simpl in Hp.
        -- rewrite app_nil_r. now apply Z.ltb_lt.
        -- injection Hp as <- ->.
           specialize (Hlast p f eq_refl).
           now rewrite <- app_assoc in Hlast.
    + exists [], (x :: fs).
      split; [reflexivity|]. split; [now rewrite app_nil_r|].
      split.
      * right. rewrite app_nil_r. now apply Z.ltb_ge.
      * intros [|? ?] f H; discriminate.
Qed.

Lemma prepend_within_gathered (B : Z) (frags : list string) :
  forall acc, exists taken rest,
    frags = taken ++ rest
    /\ prepend_within B frags acc = rev taken ++ acc
    /\ (rest = [] \/ (B <= Py.len (Py.join " " (rev taken ++ acc)))%Z)
    /\ (forall p f, taken = p ++ [f] ->
          (Py.len (Py.join " " (rev p ++ acc)) < B)%Z).
Proof.
  induction frags as [|x fs IH]; intros acc.
  - exists [], []. repeat split; auto.
    intros [|? ?] f H; discriminate.
  - simpl. destruct (Py.len (Py.join " " acc) <? B)%Z eqn:Hlen.
    + destruct (IH (x :: acc)) as (taken & rest & Hfs & Hres & Hstop & Hlast).
      exists (x :: taken), rest. simpl rev.
      rewrite <- !app_assoc. simpl.
      repeat split; auto.
      * now rewrite Hfs.
      * intros [|y p] f Hp; simpl in Hp.
        -- now apply Z.ltb_lt.
        -- injection Hp as <- ->. simpl rev.
           rewrite <- app_assoc. simpl. exact (Hlast p f eq_refl).
    + exists [], (x :: fs). repeat split; auto.
      * right. now apply Z.ltb_ge.
      * intros [|? ?] f H; discriminate.
Qed.

Lemma after_gathered (img_tag : Handle) (B : Z) :
  gathered B (fun l => l) (qualifying (find_all_next_strings img_tag))
    (after (_get_surrounding_text img_tag B)).
Proof.
  unfold _get_surrounding_text, find_all_next_strings. cbn [after].
  rewrite next_loop_qualifying by apply strings_found_are_true.
  destruct (append_within_gathered B
              (qualifying (List.filter is_string (next_elements img_tag))) [])
    as (taken & rest & Hfs & Hres & Hstop & Hlast).
  simpl in Hres, Hstop, Hlast.
  exists taken, rest. rewrite Hres.
  split; [exact Hfs|]. split; [reflexivity|]. split; [exact Hstop|].
  intros p f Hp. specialize (Hlast p f Hp). rewrite Hp.
  pose proof (len_join_snoc f p). lia.
Qed.

Lemma before_gathered (img_tag : Handle) (B : Z) :
  gathered B (@rev string) (qualifying (find_all_previous_strings img_tag))
    (before (_get_surrounding_text img_tag B)).
Proof.
  unfold _get_surrounding_text, find_all_previous_strings. cbn [before].
  rewrite previous_loop_qualifying by apply strings_found_are_true.
  destruct (prepend_within_gathered B
              (qualifying (List.filter is_string (previous_elements img_tag)))
              [])
    as (taken & rest & Hfs & Hres & Hstop & Hlast).
  rewrite app_nil_r in Hres, Hstop.
  exists taken, rest. rewrite Hres.
  split; [exact Hfs|]. split; [reflexivity|]. split; [exact Hstop|].
  intros p f Hp. specialize (Hlast p f Hp). rewrite Hp.
  rewrite app_nil_r in Hlast. rewrite rev_unit.
  pose proof (len_join_cons f (rev p)). lia.
Qed.

Lemma len_of_forty (f : string) :
  String.length f = 40 -> Py.len f = 40%Z.
Proof. unfold Py.len. now intros ->. Qed.

Lemma len_joined_pair (f g : string) :
  Py.len (f +:+ " " +:+ g) = (Py.len f + 1 + Py.len g)%Z.
Proof.
  unfold Py.len. rewrite !length_append.
  change (String.length " ") with 1. lia.
Qed.

Lemma append_three_of_forty (f1 f2 f3 : string) (more : list string) :
  String.length f1 = 40 -> String.length f2 = 40 -> String.length f3 = 40 ->
  append_within 100 (f1 :: f2 :: f3 :: more) [] = [f1; f2; f3].
Proof.
  intros H1 H2 H3.
  apply len_of_forty in H1, H2, H3.
  assert (E1 : (Py.len (Py.join " " [f1]) <? 100)%Z = true).
  { cbn [Py.join]. rewrite H1. reflexivity. }
  assert (E2 : (Py.len (Py.join " " [f1; f2]) <? 100)%Z = true).
  { cbn [Py.join]. rewrite len_joined_pair, H1, H2. reflexivity. }
  assert (E3 : (Py.len (Py.join " " [f1; f2; f3]) <? 100)%Z = false).
  { cbn [Py.join]. rewrite !len_joined_pair, H1, H2, H3. reflexivity. }
  cbn [append_within]. change (Py.len (Py.join " " []) <? 100)%Z with true.
  cbn [app]. rewrite E1. cbn [app]. rewrite E2. cbn [app].
  now apply append_within_full.
Qed.

Lemma prepend_three_of_forty (f1 f2 f3 : string) (more : list string) :
  String.length f1 = 40 -> String.length f2 = 40 -> String.length f3 = 40 ->
  prepend_within 100 (f1 :: f2 :: f3 :: more) [] = [f3; f2; f1].
Proof.
  intros H1 H2 H3.
  apply len_of_forty in H1, H2, H3.
  assert (E1 : (Py.len (Py.join " " [f1]) <? 100)%Z = true).
  { cbn [Py.join]. rewrite H1. reflexivity. }
  assert (E2 : (Py.len (Py.join " " [f2; f1]) <? 100)%Z = true).
  { cbn [Py.join]. rewrite len_joined_pair, H1, H2. reflexivity. }
  assert (E3 : (Py.len (Py.join " " [f3; f2; f1]) <? 100)%Z = false).
  { cbn [Py.join]. rewrite !len_joined_pair, H1, H2, H3. reflexivity. }
  cbn [prepend_within]. change (Py.len (Py.join " " []) <? 100)%Z with true.
  cbv iota. rewrite E1, E2.
  now apply prepend_within_full.
Qed.

(** C3: on each side of an image the extractor joins trimmed qualifying
    fragments with single blanks, nearest first, and goes on until the
    joined length has reached the budget or the text nodes have run out.
    The length is looked at after each fragment is added, so the result
    may pass the budget by one fragment.  With the default budget of 100,
    three qualifying fragments of forty characters on a side are all
    taken, and that side is at least 100 characters long. *)
Theorem C3_context_budget (img_tag : Handle) (B : Z) :
  let fragments_before := qualifying (find_all_previous_strings img_tag) in
  let fragments_after := qualifying (find_all_next_strings img_tag) in
  gathered B (@rev string) fragments_before
    (before (_get_surrounding_text img_tag B))
  /\ gathered B (fun l => l) fragments_after
       (after (_get_surrounding_text img_tag B))
  /\ (forall f1 f2 f3 more,
        fragments_before = f1 :: f2 :: f3 :: more ->
        String.length f1 = 40 -> String.length f2 = 40 ->
        String.length f3 = 40 ->
        let side :=
          before (_get_surrounding_text img_tag default_context_range) in
        side = f3 +:+ " " +:+ f2 +:+ " " +:+ f1 /\ (100 <= Py.len side)%Z)
  /\ (forall f1 f2 f3 more,
        fragments_after = f1 :: f2 :: f3 :: more ->
        String.length f1 = 40 -> String.length f2 = 40 ->
        String.length f3 = 40 ->
        let side :=
          after (_get_surrounding_text img_tag default_context_range) in
        side = f1 +:+ " " +:+ f2 +:+ " " +:+ f3 /\ (100 <= Py.len side)%Z).
Proof.
  cbv zeta.
  split; [apply before_gathered|]. split; [apply after_gathered|]. split.
  - intros f1 f2 f3 more Hfrags H1 H2 H3.
    unfold _get_surrounding_text, default_context_range. cbn [before].
    unfold find_all_previous_strings in *.
    rewrite previous_loop_qualifying by apply strings_found_are_true.
    rewrite Hfrags, prepend_three_of_forty by assumption.
    split; [reflexivity|]. cbn [Py.join].
    rewrite !len_joined_pair, !len_of_forty by assumption. lia.
  - intros f1 f2 f3 more Hfrags H1 H2 H3.
    unfold _get_surrounding_text, default_context_range. cbn [after].
    unfold find_all_next_strings in *.
    rewrite next_loop_qualifying by apply strings_found_are_true.
    rewrite Hfrags, append_three_of_forty by assumption.
    split; [reflexivity|]. cbn [Py.join].
    rewrite !len_joined_pair, !len_of_forty by assumption. lia.
Qed.

(** Around the image of the garden page four qualifying paragraphs stand on
    each side, three of them of forty characters next to the image: these
    three are taken, the fourth is not; the style sheet, the script, the
    white space and the empty comment are passed over. *)
Example garden_context :
  _get_surrounding_text (first_image garden_page) default_context_range
  = {| before := "Our garden opens to visitors each spring Tickets are sold at the gate until noon. Guided walks leave the old mill at four.";
       after := "The tea room serves cakes from ten to 4. Parking is free for members of the club. Maps of the paths are sold in the shop.." |}
  /\ Py.len (before (_get_surrounding_text (first_image garden_page)
                       default_context_range)) = 122%Z.
Proof. vm_compute. auto. Qed.

(** ** The assembler and the generation path *)

Section Batch.

Variable World : Type.
Variable messages_create : Request -> World -> Outcome * World.
Variable repr : string -> string.

Abbreviation generate := (generate_alt_text messages_create repr).
Abbreviation record_of := (image_record messages_create repr).
Abbreviation extract := (extract_image_info messages_create repr).
Abbreviation records_of := (records_from messages_create repr).
Abbreviation after_images := (client_after messages_create repr).

Lemma generate_decorative (image_data : ImageData RoleInfo)
  (c : Client World) :
  is_decorative (role image_data) = true ->
  generate image_data c = ("", c).
Proof. unfold generate_alt_text. now intros ->. Qed.

Lemma generate_other (image_data : ImageData RoleInfo) (c : Client World) :
  is_decorative (role image_data) = false ->
  exists request,
    generate image_data c
    = (description (fst (messages_create request (world c))),
       {| world := snd (messages_create request (world c));
          requests := requests c ++ [request] |}).
Proof.
  unfold generate_alt_text. intros ->. cbv zeta.
  match goal with
  | |- context [create _ ?p] => exists p
  end.
  unfold bind, create.
  destruct (messages_create _ (world c)) as [[text|e] w]; reflexivity.
Qed.

Lemma record_of_assembled (img : Handle) (c : Client World) :
  record_of img c
  = (set_suggested_alt
       (fst (generate (copy_with_role (_determine_image_role img)
                         (assembled img)) c))
       (assembled img),
     snd (generate (copy_with_role (_determine_image_role img)
                      (assembled img)) c)).
Proof.
  unfold image_record, bind, ret. cbv zeta. fold (assembled img).
  now destruct (generate _ c).
Qed.

Lemma each_img_records (imgs : list Handle) :
  forall images_data c,
    each_img messages_create repr imgs images_data c
    = (images_data ++ records_of imgs c, after_images imgs c).
Proof.
  induction imgs as [|img rest IH]; intros images_data c.
  - cbn. now rewrite app_nil_r.
  - cbn [each_img records_from client_after]. unfold bind.
    destruct (record_of img c) as [image_data c1] eqn:Hrecord.
    rewrite IH, <- app_assoc. reflexivity.
Qed.

Lemma extract_image_info_records (soup : PageElement) (c : Client World) :
  extract_image_info messages_create repr soup c
  = (records_of (images soup) c, after_images (images soup) c).
Proof. unfold extract_image_info. now rewrite each_img_records. Qed.

Lemma records_from_length (imgs : list Handle) :
  forall c, length (records_of imgs c) = length imgs.
Proof.
  induction imgs as [|img rest IH]; intros c; [reflexivity|].
  cbn [records_from length]. now rewrite IH.
Qed.

(** Record [i] is the one made for image [i], by the client as the
    images before it have left it. *)
Lemma records_from_lookup (imgs : list Handle) :
  forall c i img,
    imgs !! i = Some img ->
    records_of imgs c !! i
    = Some (fst (record_of img (after_images (take i imgs) c))).
Proof.
  induction imgs as [|x rest IH]; intros c i img Hi.
  - discriminate.
  - destruct i as [|i].
    + injection Hi as ->. reflexivity.
    + cbn [records_from take client_after]. cbn in Hi |- *.
      now apply IH.
Qed.

Lemma records_from_lookup_inv (imgs : list Handle) (c : Client World)
  (i : nat) (d : ImageData string) :
  records_of imgs c !! i = Some d ->
  exists img,
    imgs !! i = Some img
    /\ d = fst (record_of img (after_images (take i imgs) c)).
Proof.
  intros Hd.
  assert (Hlt : i < length imgs).
  { rewrite <- (records_from_length imgs c).
    now apply lookup_lt_Some in Hd. }
  destruct (lookup_lt_is_Some_2 imgs i Hlt) as [img Himg].
  exists img. split; [exact Himg|].
  rewrite (records_from_lookup imgs c i img Himg) in Hd. congruence.
Qed.

End Batch.

(** ** Captions *)

Lemma find_parent_found (h : Handle) (names : list string)
  (p : PageElement) :
  find_parent h names = Some p ->
  In p (parents (here h)) /\ is_tag_named names p = true.
Proof. unfold find_parent. apply List.find_some. Qed.

Lemma find_found (e : PageElement) (name : string) (x : PageElement) :
  find e name = Some x ->
  (exists l, In l (descendants [] e) /\ element l = x)
  /\ is_tag_named [name] x = true.
Proof.
  unfold find.
  destruct (List.find _ (descendants [] e)) as [l|] eqn:Hfind;
    [|discriminate].
  intros [= <-]. apply List.find_some in Hfind. destruct Hfind as [Hin Hn].
  eauto.
Qed.

Lemma named_one (name : string) (e : PageElement) :
  is_tag_named [name] e = true -> name_of e = Some name.
Proof.
  intros H. apply is_tag_named_spec in H.
  destruct H as (n & Hn & [<-|[]]). exact Hn.
Qed.

(** For an image that is not decorative the caption flag says whether
    the nearest enclosing figure has a figcaption below it. *)
Lemma caption_flag_of_nearest_figure (img_tag : Handle) :
  is_decorative (_determine_image_role img_tag) = false ->
  (has_caption (_determine_image_role img_tag) = true <->
     exists figure figcaption,
       find_parent img_tag ["figure"] = Some figure
       /\ find figure "figcaption" = Some figcaption).
Proof.
  rewrite decorative_iff_test. intros Htest.
  rewrite (role_when_not_decorative img_tag Htest). cbn.
  destruct (find_parent img_tag ["figure"]) as [figure|]; cbn.
  - destruct (find figure "figcaption") as [figcaption|] eqn:Hfind; cbn.
    + split; eauto.
    + split; [discriminate|]. intros (? & ? & [= <-] & H). congruence.
  - split; [discriminate|]. intros (? & ? & H & _). discriminate.
Qed.

(** The figure next to the image decides: a caption of an outer figure
    is not looked for. *)
Example outer_caption_is_not_seen :
  let r := _determine_image_role (first_image nested_figures_page) in
  is_decorative r = false /\ has_caption r = false /\ caption_text r = "".
Proof. vm_compute. auto. Qed.

(** C5, as the code has it: for an image that is not decorative the
    caption flag is set, and the caption text stored, only when a figure
    encloses the image and has a figcaption below it, whether or not the
    text of that figcaption is empty: the figure is the nearest one
    around the image, the figcaption the first one below it, and the
    text stored is what [get_text(strip=True)] gives for it.  The caption
    text is empty whenever the flag is not set. *)
Theorem C5_caption_flag_follows_the_element (img_tag : Handle) :
  is_decorative (_determine_image_role img_tag) = false ->
  let r := _determine_image_role img_tag in
  (has_caption r = true ->
     exists figure figcaption,
       In figure (parents (here img_tag))
       /\ name_of figure = Some "figure"
       /\ (exists l, In l (descendants [] figure) /\ element l = figcaption)
       /\ name_of figcaption = Some "figcaption"
       /\ find_parent img_tag ["figure"] = Some figure
       /\ find figure "figcaption" = Some figcaption
       /\ caption_text r = get_text_strip figcaption)
  /\ (has_caption r = false -> caption_text r = "").
Proof.
  rewrite decorative_iff_test. intros Htest. cbv zeta.
  rewrite (role_when_not_decorative img_tag Htest). cbn.
  destruct (find_parent img_tag ["figure"]) as [figure|] eqn:Hfigure; cbn.
  - destruct (find figure "figcaption") as [figcaption|] eqn:Hfind; cbn.
    + split; [|discriminate]. intros _.
      destruct (find_parent_found _ _ _ Hfigure) as [Hin Hname].
      destruct (find_found _ _ _ Hfind) as [Hbelow Hcaption].
      exists figure, figcaption.
      split; [exact Hin|]. split; [now apply named_one|].
      split; [exact Hbelow|]. split; [now apply named_one|].
      auto.
    + split; [discriminate|reflexivity].
  - split; [discriminate|reflexivity].
Qed.

(** The photograph of the mill stands in a figure with a caption in two
    pieces. *)
Lemma C5_witness :
  let r := _determine_image_role (first_image captioned_page) in
  is_decorative r = false
  /\ has_caption r = true
  /\ caption_text r = "The old millin May"
  /\ exists figure figcaption,
       In figure (parents (here (first_image captioned_page)))
       /\ name_of figure = Some "figure"
       /\ (exists l, In l (descendants [] figure) /\ element l = figcaption)
       /\ name_of figcaption = Some "figcaption"
       /\ caption_text r = get_text_strip figcaption.
Proof.
  cbv zeta.
  destruct (C5_caption_flag_follows_the_element (first_image captioned_page))
    as (Hflag & _).
  - vm_compute. reflexivity.
  - split; [vm_compute; reflexivity|].
    split; [vm_compute; reflexivity|].
    split; [vm_compute; reflexivity|].
    destruct Hflag as (figure & figcaption & H1 & H2 & H3 & H4 & _ & _ & H7).
    + vm_compute. reflexivity.
    + exists figure, figcaption. auto.
Defined.

(** The chart stands in a figure whose figcaption holds no text: the flag
    is set although no figcaption with text exists, and the caption text
    is empty although the flag is set. *)
Lemma C5_counterexample :
  let img_tag := first_image empty_caption_page in
  let r := _determine_image_role img_tag in
  is_decorative r = false
  /\ has_caption r = true
  /\ caption_text r = ""
  /\ (exists figure,
        find_parent img_tag ["figure"] = Some figure
        /\ forall l, In l (descendants [] figure) ->
             is_tag_named ["figcaption"] (element l) = true ->
             Py.strip (get_text_strip (element l)) = "")
  /\ ~ (caption_text r = "" <-> has_caption r = false).
Proof.
  cbv zeta.
  split; [vm_compute; reflexivity|].
  split; [vm_compute; reflexivity|].
  split; [vm_compute; reflexivity|].
  split.
  - eexists. split; [vm_compute; reflexivity|].
    intros l Hin Hname. cbn in Hin.
    destruct Hin as [<-|[<-|[]]]; [discriminate Hname|reflexivity].
  - intros [H _].
    assert (Hc : caption_text (_determine_image_role
                                 (first_image empty_caption_page)) = "")
      by (vm_compute; reflexivity).
    apply H in Hc. vm_compute in Hc. discriminate Hc.
Qed.

(** ** The optional keys of a record *)

(** Takes the record of an image apart along the tests of the
    assembler. *)
Ltac assembler_paths img :=
  unfold assembled; cbv zeta;
  destruct (link_text (_determine_image_role img)) as [t|];
  simpl (default _ _);
  destruct (is_decorative (_determine_image_role img));
  destruct (is_functional (_determine_image_role img));
  destruct (Py.truthy
              (Py.strip (get_default (element (here img)) "title" "")));
  destruct (Py.truthy
              (Py.strip (caption_text (_determine_image_role img))));
  try destruct (Py.truthy (Py.strip t));
  reflexivity.

Lemma assembled_title (img : Handle) :
  title (assembled img)
  = let t := Py.strip (get_default (element (here img)) "title" "") in
    if Py.truthy t then Some t else None.
Proof. assembler_paths img. Qed.

Lemma assembled_caption (img : Handle) :
  caption (assembled img)
  = let text := caption_text (_determine_image_role img) in
    if Py.truthy (Py.strip text) then Some text else None.
Proof. assembler_paths img. Qed.

Lemma assembled_link (img : Handle) :
  link (assembled img)
  = let r := _determine_image_role img in
    match link_text r with
    | Some t =>
        if is_functional r && Py.truthy (Py.strip t)
        then Some {| text := t; url := default "" (link_url r) |}
        else None
    | None => None
    end.
Proof. assembler_paths img. Qed.

Lemma assembled_role (img : Handle) :
  role (assembled img)
  = let r := _determine_image_role img in
    if is_decorative r then "decorative"
    else if is_functional r then "functional" else "informative".
Proof. assembler_paths img. Qed.

Lemma assembled_src (img : Handle) :
  src (assembled img) = get_default (element (here img)) "src" "".
Proof. assembler_paths img. Qed.

Section Claims.

Variable World : Type.
Variable messages_create : Request -> World -> Outcome * World.
Variable repr : string -> string.

Abbreviation generate := (generate_alt_text messages_create repr).
Abbreviation record_of := (image_record messages_create repr).
Abbreviation extract := (extract_image_info messages_create repr).
Abbreviation after_images := (client_after messages_create repr).

Lemma client_after_app (l1 l2 : list Handle) :
  forall c, after_images (l1 ++ l2) c = after_images l2 (after_images l1 c).
Proof.
  induction l1 as [|img l1 IH]; intros c; [reflexivity|].
  cbn [app client_after]. apply IH.
Qed.

Lemma client_after_next (imgs : list Handle) (c : Client World) (i : nat)
  (img : Handle) :
  imgs !! i = Some img ->
  after_images (take (S i) imgs) c
  = snd (record_of img (after_images (take i imgs) c)).
Proof.
  intros Hi. rewrite (take_S_r imgs i img Hi), client_after_app.
  reflexivity.
Qed.

(** Record [i] of the result, from image [i]. *)
Lemma record_at (soup : PageElement) (c : Client World) (i : nat)
  (img : Handle) :
  images soup !! i = Some img ->
  fst (extract soup c) !! i
  = Some (fst (record_of img (after_images (take i (images soup)) c))).
Proof.
  intros Hi. rewrite extract_image_info_records. cbn [fst].
  now apply records_from_lookup.
Qed.

(** C6: in every record that is produced the keys title, caption and
    link are absent, and never present with an empty value, when what
    they come from is empty after trimming.  The title is there exactly
    when the trimmed title attribute is not empty; the caption exactly
    when the trimmed caption text is not empty; the link exactly when
    the image is functional and its enclosing anchor has visible text
    that is not empty after trimming.  So a functional image in an
    anchor with nothing but white space has no link in its record. *)
Theorem C6_optional_fields_absent_when_empty (soup : PageElement)
  (c : Client World) (i : nat) (d : ImageData string) :
  fst (extract soup c) !! i = Some d ->
  exists img_tag,
    images soup !! i = Some img_tag
    /\ let img := element (here img_tag) in
       let r := _determine_image_role img_tag in
       (forall t, title d = Some t <->
          t = Py.strip (get_default img "title" "") /\ t <> "")
       /\ (forall x, caption d = Some x <->
             x = caption_text r /\ Py.strip x <> "")
       /\ (forall l, link d = Some l <->
             is_functional r = true
             /\ exists a,
                  find_parent img_tag ["a"] = Some a
                  /\ l = {| text := get_text_strip a;
                            url := get_default a "href" "" |}
                  /\ Py.strip (get_text_strip a) <> "")
       /\ (forall a, find_parent img_tag ["a"] = Some a ->
             Py.strip (get_text_strip a) = "" -> link d = None).
Proof.
  intros Hd. rewrite extract_image_info_records in Hd. cbn [fst] in Hd.
  apply records_from_lookup_inv in Hd. destruct Hd as (img_tag & Hi & ->).
  exists img_tag. split; [exact Hi|]. cbv zeta.
  rewrite record_of_assembled. cbn [fst set_suggested_alt title caption link].
  rewrite assembled_title, assembled_caption, assembled_link. cbv zeta.
  split; [|split].
  - intros t.
    destruct (Py.truthy (Py.strip (get_default (element (here img_tag))
                                     "title" ""))) eqn:Ht.
    + apply truthy_true in Ht. split.
      * intros [= <-]. auto.
      * intros [-> _]. reflexivity.
    + apply truthy_false in Ht. split; [discriminate|].
      intros [-> Hne]. contradiction.
  - intros x.
    destruct (Py.truthy (Py.strip (caption_text
                                     (_determine_image_role img_tag))))
      eqn:Hc.
    + apply truthy_true in Hc. split.
      * intros [= <-]. auto.
      * intros [-> _]. reflexivity.
    + apply truthy_false in Hc. split; [discriminate|].
      intros [-> Hne]. contradiction.
  - destruct (decorative_test img_tag) eqn:Htest.
    + rewrite (role_when_decorative _ Htest). cbn. split.
      * intros l. split; [discriminate|]. intros [H _]. discriminate.
      * reflexivity.
    + rewrite (role_when_not_decorative _ Htest). cbn.
      destruct (find_parent img_tag ["a"]) as [anchor|]; cbn.
      * destruct (Py.truthy (Py.strip (get_text_strip anchor))) eqn:Ha.
        -- apply truthy_true in Ha. split.
           ++ intros l. split.
              ** intros [= <-]. split; [reflexivity|].
                 exists anchor. auto.
              ** intros (_ & a & [= <-] & -> & _). reflexivity.
           ++ intros a [= <-] He. contradiction.
        -- apply truthy_false in Ha. split.
           ++ intros l. split; [discriminate|].
              intros (_ & a & [= <-] & _ & Hne). contradiction.
           ++ reflexivity.
      * split.
        -- intros l. split; [discriminate|].
           intros (_ & a & Hfalse & _). discriminate.
        -- reflexivity.
Qed.

(** C7: for an image that is classified decorative the suggested text of
    its record is the empty string, and the service is not called for
    it: [generate_alt_text] returns before it builds a prompt, and the
    client is after the image what it was before it. *)
Theorem C7_decorative_never_described (soup : PageElement)
  (c : Client World) (i : nat) (img_tag : Handle) :
  images soup !! i = Some img_tag ->
  is_decorative (_determine_image_role img_tag) = true ->
  (exists d,
     fst (extract soup c) !! i = Some d
     /\ role d = "decorative" /\ suggested_alt d = Some "")
  /\ after_images (take (S i) (images soup)) c
     = after_images (take i (images soup)) c
  /\ (forall image_data c',
        is_decorative (role image_data) = true ->
        generate image_data c' = ("", c')).
Proof.
  intros Hi Hdecorative.
  assert (Hgen : forall ci,
    generate (copy_with_role (_determine_image_role img_tag)
                (assembled img_tag)) ci = ("", ci)).
  { intros ci. now apply generate_decorative. }
  split; [|split].
  - eexists. split; [exact (record_at _ _ _ _ Hi)|].
    rewrite record_of_assembled, Hgen.
    cbn [fst set_suggested_alt role suggested_alt].
    rewrite assembled_role. cbv zeta. now rewrite Hdecorative.
  - rewrite (client_after_next _ _ _ _ Hi), record_of_assembled, Hgen.
    reflexivity.
  - intros image_data c'. apply generate_decorative.
Qed.

(** C9: a failure of the generation for one image does not stop the
    batch.  There is one record for each image of the document; the
    call made for an image that is not decorative is answered by the
    service, and when the answer is an exception the record carries the
    error string built from it as its suggested text; the records of
    all the images are there, each with a suggested text. *)
Theorem C9_failure_does_not_abort_batch (soup : PageElement)
  (c : Client World) (i : nat) (img_tag : Handle) :
  images soup !! i = Some img_tag ->
  is_decorative (_determine_image_role img_tag) = false ->
  let records := fst (extract soup c) in
  let ci := after_images (take i (images soup)) c in
  length records = length (images soup)
  /\ (exists d request,
        records !! i = Some d
        /\ requests (after_images (take (S i) (images soup)) c)
           = requests ci ++ [request]
        /\ (forall e,
              fst (messages_create request (world ci)) = Raised e ->
              suggested_alt d = Some ("Error generating alt text: " +:+ e))
        /\ (forall text,
              fst (messages_create request (world ci)) = Returned text ->
              suggested_alt d = Some (Py.strip text)))
  /\ (forall j other,
        images soup !! j = Some other ->
        exists d,
          records !! j = Some d
          /\ src d = get_default (element (here other)) "src" ""
          /\ is_Some (suggested_alt d)).
Proof.
  intros Hi Hrole. cbv zeta. split; [|split].
  - rewrite extract_image_info_records. cbn [fst].
    apply records_from_length.
  - destruct (generate_other World messages_create repr
                (copy_with_role (_determine_image_role img_tag)
                   (assembled img_tag))
                (after_images (take i (images soup)) c) Hrole)
      as [request Hgen].
    eexists. exists request. split; [exact (record_at _ _ _ _ Hi)|].
    rewrite (client_after_next _ _ _ _ Hi), record_of_assembled, Hgen.
    cbn [fst snd set_suggested_alt suggested_alt requests].
    split; [reflexivity|]. split.
    + intros e ->. reflexivity.
    + intros text ->. reflexivity.
  - intros j other Hj. eexists. split; [exact (record_at _ _ _ _ Hj)|].
    rewrite record_of_assembled.
    cbn [fst set_suggested_alt src suggested_alt].
    split; [apply assembled_src|]. eauto.
Qed.

End Claims.

(** The cart icon is functional, its anchor holds only white space and
    its title only blanks: the record has neither link nor title. *)
Lemma C6_witness :
  fst (extract_image_info failing_first quoted blank_link_page fresh_client)
    !! 0 = Some blank_link_record
  /\ is_functional (_determine_image_role (image_at blank_link_page 0)) = true
  /\ link blank_link_record = None
  /\ title blank_link_record = None.
Proof.
  destruct (C6_optional_fields_absent_when_empty nat failing_first quoted
              blank_link_page fresh_client 0 blank_link_record)
    as (img_tag & Himg & _ & _ & _ & Hblank).
  - vm_compute. reflexivity.
  - split; [vm_compute; reflexivity|].
    split; [vm_compute; reflexivity|].
    split; [|reflexivity].
    assert (Himg' : img_tag = image_at blank_link_page 0).
    { vm_compute in Himg. injection Himg as <-. vm_compute. reflexivity. }
    subst img_tag.
    eapply Hblank; vm_compute; reflexivity.
Defined.

(** The spacer of the gallery is decorative: its record has the empty
    string as suggested text, and the client is left as it was. *)
Lemma C7_witness :
  images gallery_page !! 1 = Some (image_at gallery_page 1)
  /\ is_decorative (_determine_image_role (image_at gallery_page 1)) = true
  /\ (exists d,
        fst (extract_image_info failing_first quoted gallery_page fresh_client)
          !! 1 = Some d
        /\ role d = "decorative" /\ suggested_alt d = Some "")
  /\ client_after failing_first quoted (take 2 (images gallery_page))
       fresh_client
     = client_after failing_first quoted (take 1 (images gallery_page))
         fresh_client.
Proof.
  split; [vm_compute; reflexivity|].
  split; [vm_compute; reflexivity|].
  destruct (C7_decorative_never_described nat failing_first quoted
              gallery_page fresh_client 1 (image_at gallery_page 1))
    as (Hrecord & Hclient & _).
  - vm_compute. reflexivity.
  - vm_compute. reflexivity.
  - split; [exact Hrecord|exact Hclient].
Defined.

(** The service fails on the photograph of the gallery, the first image
    it is asked about: the record of the photograph carries the error
    string, and the records of the spacer and of the linked icon follow. *)
Lemma C9_witness :
  images gallery_page !! 0 = Some (image_at gallery_page 0)
  /\ is_decorative (_determine_image_role (image_at gallery_page 0)) = false
  /\ length (fst (extract_image_info failing_first quoted gallery_page
                    fresh_client))
     = length (images gallery_page)
  /\ map suggested_alt
       (fst (extract_image_info failing_first quoted gallery_page
               fresh_client))
     = [ Some "Error generating alt text: overloaded"; Some "";
         Some "A short description." ].
Proof.
  split; [vm_compute; reflexivity|].
  split; [vm_compute; reflexivity|].
  destruct (C9_failure_does_not_abort_batch nat failing_first quoted
              gallery_page fresh_client 0 (image_at gallery_page 0))
    as (Hlength & _ & _).
  - vm_compute. reflexivity.
  - vm_compute. reflexivity.
  - split; [exact Hlength|]. vm_compute. reflexivity.
Defined.

(** ** Further properties of the role classifier *)

(** X1: an image is functional exactly when it is not decorative and an
    anchor or a button encloses it. *)
Theorem X1_functional_rule (img_tag : Handle) :
  let r := _determine_image_role img_tag in
  is_functional r = true <->
    is_decorative r = false
    /\ (find_parent img_tag ["a"] <> None
        \/ find_parent img_tag ["button"] <> None).
Proof.
  cbv zeta. destruct (decorative_test img_tag) eqn:Htest.
  - rewrite (role_when_decorative _ Htest). cbn. split.
    + discriminate.
    + intros [H _]. discriminate.
  - rewrite (role_when_not_decorative _ Htest). cbn.
    destruct (find_parent img_tag ["a"]), (find_parent img_tag ["button"]);
      cbn; intuition congruence.
Qed.

(** X2: the keys link_text and link_url exist exactly when the image is
    not decorative and an anchor encloses it; they hold the trimmed text
    of the nearest anchor and its href attribute, the empty string when
    the anchor has none.  An image that is functional through a button
    alone has neither key. *)
Theorem X2_link_keys (img_tag : Handle) :
  let r := _determine_image_role img_tag in
  (forall t, link_text r = Some t <->
     is_decorative r = false
     /\ exists a, find_parent img_tag ["a"] = Some a /\ t = get_text_strip a)
  /\ (forall u, link_url r = Some u <->
        is_decorative r = false
        /\ exists a, find_parent img_tag ["a"] = Some a
                     /\ u = default "" (get a "href"))
  /\ (find_parent img_tag ["a"] = None ->
      link_text r = None /\ link_url r = None).
Proof.
  cbv zeta. destruct (decorative_test img_tag) eqn:Htest.
  - rewrite (role_when_decorative _ Htest). cbn.
    split; [|split]; try (intros x; split; [discriminate|]); auto.
    + intros [H _]. discriminate.
    + intros [H _]. discriminate.
  - rewrite (role_when_not_decorative _ Htest). cbn.
    destruct (find_parent img_tag ["a"]) as [anchor|]; cbn.
    + split; [|split].
      * intros t. split.
        -- intros [= <-]. eauto.
        -- intros (_ & a & [= <-] & ->). reflexivity.
      * intros u. split.
        -- intros [= <-]. eauto.
        -- intros (_ & a & [= <-] & ->). reflexivity.
      * discriminate.
    + split; [|split]; auto.
      * intros t. split; [discriminate|].
        intros (_ & a & H & _). discriminate.
      * intros u. split; [discriminate|].
        intros (_ & a & H & _). discriminate.
Qed.

(** X3: for an image that is not decorative each of the three location
    flags follows its own ancestors and nothing else: in_header a header,
    in_navigation a nav, in_content an article, main or section. *)
Theorem X3_location_flags (img_tag : Handle) :
  is_decorative (_determine_image_role img_tag) = false ->
  let r := _determine_image_role img_tag in
  (in_header r = true <-> find_parent img_tag ["header"] <> None)
  /\ (in_navigation r = true <-> find_parent img_tag ["nav"] <> None)
  /\ (in_content r = true <->
        find_parent img_tag ["article"; "main"; "section"] <> None).
Proof.
  rewrite decorative_iff_test. intros Htest. cbv zeta.
  rewrite (role_when_not_decorative _ Htest). cbn.
  repeat split;
    match goal with
    | |- is_Tag ?o = true -> _ => destruct o; [discriminate|discriminate]
    | |- ?o <> None -> _ => destruct o; [reflexivity|contradiction]
    end.
Qed.

Lemma X3_witness :
  let r := _determine_image_role (first_image banner_page) in
  in_header r = true /\ in_navigation r = true /\ in_content r = true.
Proof.
  cbv zeta.
  destruct (X3_location_flags (first_image banner_page))
    as (Hh & Hn & Hc).
  - vm_compute. reflexivity.
  - split; [apply Hh|split; [apply Hn|apply Hc]];
      vm_compute; discriminate.
Defined.

(** X4: an image whose alt attribute is empty or absent and which has no
    enclosing anchor is decorative even inside a button: the button makes
    it neither functional nor informative. *)
Theorem X4_button_does_not_rescue_empty_alt (img_tag : Handle)
  (button : PageElement) :
  Py.opt_truthy (get (element (here img_tag)) "alt") = false ->
  find_parent img_tag ["a"] = None ->
  find_parent img_tag ["button"] = Some button ->
  let r := _determine_image_role img_tag in
  is_decorative r = true /\ is_functional r = false
  /\ is_informative r = false.
Proof.
  intros Halt Hanchor _. cbv zeta.
  assert (Htest : decorative_test img_tag = true).
  { unfold decorative_test. cbv zeta. rewrite Halt, Hanchor. cbn.
    now rewrite !orb_true_r. }
  now rewrite (role_when_decorative _ Htest).
Qed.

Lemma X4_witness :
  let r := _determine_image_role (first_image button_icon_page) in
  is_Tag (find_parent (first_image button_icon_page) ["button"]) = true
  /\ is_decorative r = true /\ is_functional r = false.
Proof.
  cbv zeta. split; [vm_compute; reflexivity|].
  destruct (X4_button_does_not_rescue_empty_alt
              (first_image button_icon_page)
              (Tag "button" ∅
                 [ Tag "img" (attributes [("src", "close.png")]) [];
                   NavigableString "Close" ]))
    as (Hd & Hf & _).
  - vm_compute. reflexivity.
  - vm_compute. reflexivity.
  - vm_compute. reflexivity.
  - split; assumption.
Defined.

(** ** Further properties of the context extractor *)

Lemma append_empty (s1 s2 : string) :
  s1 +:+ s2 = "" -> s1 = "" /\ s2 = "".
Proof. destruct s1; [auto|discriminate]. Qed.

Lemma append_nil_r (s : string) : s +:+ "" = s.
Proof.
  induction s as [|c s IH]; [reflexivity|].
  change (String c (s +:+ "") = String c s). now rewrite IH.
Qed.

Lemma valid_text_not_empty (current : Located) :
  is_valid_text current = true -> stripped current <> "".
Proof.
  unfold is_valid_text, stripped.
  destruct (string_of (element current)) as [s|]; [|discriminate].
  cbn [default from_option id].
  destruct (negb (Py.truthy s)); [discriminate|].
  destruct (match parent current with
            | Some p => is_tag_named unwanted_tags p
            | None => false
            end); [discriminate|].
  cbv zeta.
  destruct (Py.truthy (Py.strip s)) eqn:Ht; [|discriminate].
  intros _. now apply truthy_true.
Qed.

Lemma qualifying_not_empty (currents : list Located) :
  Forall (fun f => f <> "") (qualifying currents).
Proof.
  unfold qualifying. induction currents as [|x l IH]; [constructor|].
  simpl. destruct (is_valid_text x) eqn:Hx; [|exact IH].
  constructor; [now apply valid_text_not_empty|exact IH].
Qed.

Lemma join_starts_not_empty (f : string) (l : list string) :
  f <> "" -> Py.join " " (f :: l) <> "".
Proof.
  intros Hf. rewrite join_cons. destruct l; [exact Hf|].
  intros H. apply append_empty in H. now destruct H.
Qed.

Lemma join_ends_not_empty (f : string) (l : list string) :
  f <> "" -> Py.join " " (l ++ [f]) <> "".
Proof.
  intros Hf. rewrite join_snoc. destruct l; [exact Hf|].
  intros H. apply append_empty in H. destruct H as [_ H].
  apply append_empty in H. now destruct H.
Qed.

Lemma append_within_extends (B : Z) (frags acc : list string) :
  exists taken, append_within B frags acc = acc ++ taken.
Proof.
  destruct (append_within_gathered B frags acc) as (taken & _ & _ & H & _).
  eauto.
Qed.

Lemma prepend_within_extends (B : Z) (frags acc : list string) :
  exists taken, prepend_within B frags acc = taken ++ acc.
Proof.
  destruct (prepend_within_gathered B frags acc) as (taken & _ & _ & H & _).
  eauto.
Qed.

(** X5: a side of the context is not empty exactly when the budget is
    positive and some text node on that side qualifies; with a budget of
    zero or less both sides are empty whatever the document holds. *)
Theorem X5_side_not_empty (img_tag : Handle) (B : Z) :
  (before (_get_surrounding_text img_tag B) <> "" <->
     (0 < B)%Z /\ qualifying (find_all_previous_strings img_tag) <> [])
  /\ (after (_get_surrounding_text img_tag B) <> "" <->
        (0 < B)%Z /\ qualifying (find_all_next_strings img_tag) <> []).
Proof.
  unfold _get_surrounding_text, find_all_previous_strings,
    find_all_next_strings.
  cbn [before after].
  rewrite previous_loop_qualifying, next_loop_qualifying
    by apply strings_found_are_true.
  split.
  - pose proof (qualifying_not_empty
                  (List.filter is_string (previous_elements img_tag))) as Hq.
    destruct (qualifying (List.filter is_string (previous_elements img_tag)))
      as [|f fs].
    + cbn. intuition congruence.
    + cbn [prepend_within]. change (Py.len (Py.join " " [])) with 0%Z.
      destruct (0 <? B)%Z eqn:HB.
      * apply Z.ltb_lt in HB.
        destruct (prepend_within_extends B fs [f]) as [taken ->].
        inversion Hq as [|? ? Hf _]; subst.
        pose proof (join_ends_not_empty f taken Hf).
        intuition congruence.
      * apply Z.ltb_ge in HB. cbn. split; [congruence|]. intros [? _]. lia.
  - pose proof (qualifying_not_empty
                  (List.filter is_string (next_elements img_tag))) as Hq.
    destruct (qualifying (List.filter is_string (next_elements img_tag)))
      as [|f fs].
    + cbn. intuition congruence.
    + cbn [append_within app]. change (Py.len (Py.join " " [])) with 0%Z.
      destruct (0 <? B)%Z eqn:HB.
      * apply Z.ltb_lt in HB.
        destruct (append_within_extends B fs [f]) as [taken ->].
        inversion Hq as [|? ? Hf _]; subst.
        pose proof (join_starts_not_empty f taken Hf).
        intuition congruence.
      * apply Z.ltb_ge in HB. cbn. split; [congruence|]. intros [? _]. lia.
Qed.

Lemma append_within_mono (B B' : Z) (frags : list string) :
  (B <= B')%Z ->
  forall acc, exists more,
    append_within B' frags acc = append_within B frags acc ++ more.
Proof.
  intros HB. induction frags as [|f fs IH]; intros acc.
  - exists []. cbn. now rewrite app_nil_r.
  - cbn [append_within].
    destruct (Py.len (Py.join " " acc) <? B)%Z eqn:H1.
    + assert (H2 : (Py.len (Py.join " " acc) <? B')%Z = true).
      { apply Z.ltb_lt in H1. apply Z.ltb_lt. lia. }
      rewrite H2. apply IH.
    + destruct (Py.len (Py.join " " acc) <? B')%Z.
      * destruct (append_within_extends B' fs (acc ++ [f])) as [taken ->].
        exists ([f] ++ taken). now rewrite <- app_assoc.
      * exists []. now rewrite app_nil_r.
Qed.

Lemma prepend_within_mono (B B' : Z) (frags : list string) :
  (B <= B')%Z ->
  forall acc, exists more,
    prepend_within B' frags acc = more ++ prepend_within B frags acc.
Proof.
  intros HB. induction frags as [|f fs IH]; intros acc.
  - now exists [].
  - cbn [prepend_within].
    destruct (Py.len (Py.join " " acc) <? B)%Z eqn:H1.
    + assert (H2 : (Py.len (Py.join " " acc) <? B')%Z = true).
      { apply Z.ltb_lt in H1. apply Z.ltb_lt. lia. }
      rewrite H2. apply IH.
    + destruct (Py.len (Py.join " " acc) <? B')%Z.
      * destruct (prepend_within_extends B' fs (f :: acc)) as [taken ->].
        exists (taken ++ [f]). now rewrite <- app_assoc.
      * now exists [].
Qed.

Lemma join_app_starts (sep : string) (l m : list string) :
  exists more, Py.join sep (l ++ m) = Py.join sep l +:+ more.
Proof.
  induction l as [|x l IH].
  - now exists (Py.join sep m).
  - destruct l as [|y l].
    + change ([x] ++ m) with (x :: m). rewrite join_cons.
      destruct m.
      * exists "". cbn. now rewrite append_nil_r.
      * now eexists.
    + destruct IH as [more IH].
      change ((x :: y :: l) ++ m) with (x :: ((y :: l) ++ m)).
      rewrite join_cons.
      change ((y :: l) ++ m) with (y :: (l ++ m)) in *.
      rewrite IH. exists more.
      rewrite (join_cons sep x (y :: l)). now rewrite !append_assoc.
Qed.

Lemma join_app_ends (sep : string) (l m : list string) :
  exists more, Py.join sep (m ++ l) = more +:+ Py.join sep l.
Proof.
  induction m as [|x m IH].
  - now exists "".
  - destruct IH as [more IH].
    change ((x :: m) ++ l) with (x :: (m ++ l)). rewrite join_cons.
    destruct (m ++ l) as [|y r] eqn:Hml.
    + apply app_eq_nil in Hml. destruct Hml as [_ ->].
      exists x. cbn. now rewrite append_nil_r.
    + rewrite IH. exists (x +:+ sep +:+ more).
      now rewrite !append_assoc.
Qed.

(** X6: raising the budget only adds text on the far side: with a
    greater budget the text after the image starts with what the smaller
    budget gave, and the text before it ends with what the smaller budget
    gave. *)
Theorem X6_budget_monotone (img_tag : Handle) (B B' : Z) :
  (B <= B')%Z ->
  (exists more,
     after (_get_surrounding_text img_tag B')
     = after (_get_surrounding_text img_tag B) +:+ more)
  /\ (exists more,
        before (_get_surrounding_text img_tag B')
        = more +:+ before (_get_surrounding_text img_tag B)).
Proof.
  intros HB.
  unfold _get_surrounding_text, find_all_previous_strings,
    find_all_next_strings.
  cbn [before after].
  rewrite !previous_loop_qualifying, !next_loop_qualifying
    by apply strings_found_are_true.
  split.
  - destruct (append_within_mono B B'
                (qualifying (List.filter is_string (next_elements img_tag)))
                HB []) as [more ->].
    apply join_app_starts.
  - destruct (prepend_within_mono B B'
                (qualifying (List.filter is_string
                               (previous_elements img_tag)))
                HB []) as [more ->].
    apply join_app_ends.
Qed.

Lemma X6_witness :
  exists more,
    after (_get_surrounding_text (first_image garden_page) 100)
    = after (_get_surrounding_text (first_image garden_page) 50) +:+ more.
Proof.
  destruct (X6_budget_monotone (first_image garden_page) 50 100) as [H _].
  - lia.
  - exact H.
Defined.

(** ** Further properties of the assembler *)

Lemma assembled_existing_alt (img : Handle) :
  existing_alt (assembled img) = get_default (element (here img)) "alt" "".
Proof. assembler_paths img. Qed.

Lemma assembled_context (img : Handle) :
  context (assembled img) = _get_surrounding_text img default_context_range.
Proof. assembler_paths img. Qed.

Section Records.

Variable World : Type.
Variable messages_create : Request -> World -> Outcome * World.
Variable repr : string -> string.

Abbreviation extract := (extract_image_info messages_create repr).

(** Record [i] of the result is the assembled record of image [i] with
    a suggested text. *)
Lemma record_is_assembled (soup : PageElement) (c : Client World) (i : nat)
  (img : Handle) :
  images soup !! i = Some img ->
  exists suggested,
    fst (extract soup c) !! i
    = Some (set_suggested_alt suggested (assembled img)).
Proof.
  intros Hi. rewrite (record_at _ _ _ _ _ _ _ Hi), record_of_assembled.
  cbn [fst]. eauto.
Qed.

Lemma record_has_image (soup : PageElement) (c : Client World) (i : nat)
  (d : ImageData string) :
  fst (extract soup c) !! i = Some d ->
  exists img suggested,
    images soup !! i = Some img
    /\ d = set_suggested_alt suggested (assembled img).
Proof.
  intros Hd. rewrite extract_image_info_records in Hd. cbn [fst] in Hd.
  apply records_from_lookup_inv in Hd. destruct Hd as (img & Hi & ->).
  exists img. rewrite record_of_assembled. cbn [fst]. eauto.
Qed.

(** X7: the records follow the images of the document, one for one and
    in document order: record [i] carries the src and alt attributes of
    image [i], the empty string standing for an attribute that is absent,
    and the context of that image under the default budget of 100. *)
Theorem X7_records_follow_images (soup : PageElement) (c : Client World)
  (i : nat) (img_tag : Handle) :
  images soup !! i = Some img_tag ->
  length (fst (extract soup c)) = length (images soup)
  /\ exists d,
       fst (extract soup c) !! i = Some d
       /\ src d = default "" (get (element (here img_tag)) "src")
       /\ existing_alt d = default "" (get (element (here img_tag)) "alt")
       /\ context d = _get_surrounding_text img_tag 100.
Proof.
  intros Hi. split.
  - rewrite extract_image_info_records. cbn [fst].
    apply records_from_length.
  - destruct (record_is_assembled soup c i img_tag Hi) as [suggested Hd].
    eexists. split; [exact Hd|].
    cbn [set_suggested_alt src existing_alt context].
    rewrite assembled_src, assembled_existing_alt, assembled_context.
    auto.
Qed.

(** X8: the role named in a record is the flag set in the role
    information of its image: decorative, functional or informative. *)
Theorem X8_role_name_follows_flags (soup : PageElement) (c : Client World)
  (i : nat) (img_tag : Handle) :
  images soup !! i = Some img_tag ->
  exists d,
    fst (extract soup c) !! i = Some d
    /\ let r := _determine_image_role img_tag in
       (role d = "decorative" <-> is_decorative r = true)
       /\ (role d = "functional" <-> is_functional r = true)
       /\ (role d = "informative" <-> is_informative r = true).
Proof.
  intros Hi.
  destruct (record_is_assembled soup c i img_tag Hi) as [suggested Hd].
  eexists. split; [exact Hd|]. cbv zeta.
  cbn [set_suggested_alt role]. rewrite assembled_role. cbv zeta.
  destruct (decorative_test img_tag) eqn:Htest.
  - rewrite (role_when_decorative _ Htest). cbn. intuition congruence.
  - rewrite (role_when_not_decorative _ Htest). cbn.
    destruct (is_Tag (find_parent img_tag ["a"])
              || is_Tag (find_parent img_tag ["button"]));
      cbn; intuition congruence.
Qed.

(** X9: the record of a decorative image has neither caption nor link,
    whatever figure or anchor encloses the image; its context is
    extracted all the same. *)
Theorem X9_decorative_record_is_bare (soup : PageElement)
  (c : Client World) (i : nat) (img_tag : Handle) :
  images soup !! i = Some img_tag ->
  is_decorative (_determine_image_role img_tag) = true ->
  exists d,
    fst (extract soup c) !! i = Some d
    /\ caption d = None /\ link d = None
    /\ context d = _get_surrounding_text img_tag 100.
Proof.
  intros Hi Hdecorative.
  destruct (record_is_assembled soup c i img_tag Hi) as [suggested Hd].
  eexists. split; [exact Hd|].
  cbn [set_suggested_alt caption link context].
  rewrite assembled_caption, assembled_link, assembled_context. cbv zeta.
  rewrite decorative_iff_test in Hdecorative.
  rewrite (role_when_decorative _ Hdecorative). cbn. auto.
Qed.

(** X10: a record that has a link is the record of a functional image,
    and a record that has a caption or a link is not that of a decorative
    one. *)
Theorem X10_link_means_functional (soup : PageElement) (c : Client World)
  (i : nat) (d : ImageData string) :
  fst (extract soup c) !! i = Some d ->
  (link d <> None -> role d = "functional")
  /\ (caption d <> None -> role d <> "decorative").
Proof.
  intros Hd.
  destruct (record_has_image soup c i d Hd) as (img & suggested & _ & ->).
  cbn [set_suggested_alt link caption role].
  rewrite assembled_link, assembled_caption, assembled_role. cbv zeta.
  destruct (decorative_test img) eqn:Htest.
  - rewrite (role_when_decorative _ Htest). cbn. intuition congruence.
  - rewrite (role_when_not_decorative _ Htest). cbn [is_decorative].
    split.
    + destruct (link_text _) as [t|]; [|congruence].
      destruct (is_functional _); cbn; congruence.
    + intros _. destruct (is_functional _); discriminate.
Qed.

End Records.

Lemma X7_witness :
  exists d,
    fst (extract_image_info failing_first quoted blank_alt_page fresh_client)
      !! 0 = Some d
    /\ src d = "dot.png" /\ existing_alt d = " ".
Proof.
  destruct (X7_records_follow_images nat failing_first quoted
              blank_alt_page fresh_client 0 (image_at blank_alt_page 0))
    as (_ & d & Hd & Hsrc & Halt & _).
  - vm_compute. reflexivity.
  - exists d. split; [exact Hd|]. split.
    + rewrite Hsrc. vm_compute. reflexivity.
    + rewrite Halt. vm_compute. reflexivity.
Defined.

Lemma X8_witness :
  exists d,
    fst (extract_image_info failing_first quoted gallery_page fresh_client)
      !! 2 = Some d
    /\ role d = "functional".
Proof.
  destruct (X8_role_name_follows_flags nat failing_first quoted
              gallery_page fresh_client 2 (image_at gallery_page 2))
    as (d & Hd & _ & Hf & _).
  - vm_compute. reflexivity.
  - exists d. split; [exact Hd|]. apply Hf. vm_compute. reflexivity.
Defined.

(** The hidden logo stands in an anchor with text and in a figure with a
    caption; its record has neither link nor caption. *)
Lemma X9_witness :
  is_Tag (find_parent (image_at hidden_logo_page 0) ["figure"]) = true
  /\ exists d,
       fst (extract_image_info failing_first quoted hidden_logo_page
              fresh_client) !! 0 = Some d
       /\ caption d = None /\ link d = None.
Proof.
  split; [vm_compute; reflexivity|].
  destruct (X9_decorative_record_is_bare nat failing_first quoted
              hidden_logo_page fresh_client 0 (image_at hidden_logo_page 0))
    as (d & Hd & Hc & Hl & _).
  - vm_compute. reflexivity.
  - vm_compute. reflexivity.
  - exists d. auto.
Defined.

Lemma X10_witness :
  fst (extract_image_info failing_first quoted gallery_page fresh_client)
    !! 2 = Some shop_record
  /\ link shop_record <> None
  /\ role shop_record = "functional".
Proof.
  destruct (X10_link_means_functional nat failing_first quoted
              gallery_page fresh_client 2 shop_record) as [Hl _].
  - vm_compute. reflexivity.
  - split; [vm_compute; reflexivity|].
    split; [discriminate|]. apply Hl. discriminate.
Defined.

(** ** Further properties of the generation path *)

Lemma rstrip_keeps_head (c : ascii) (s : string) :
  Py.isspace c = false -> Py.rstrip (String c s) = String c (Py.rstrip s).
Proof.
  intros Hc. cbn [Py.rstrip]. rewrite Hc. now destruct (Py.rstrip s).
Qed.

Lemma rstrip_idempotent (s : string) : Py.rstrip (Py.rstrip s) = Py.rstrip s.
Proof.
  induction s as [|c s IH]; [reflexivity|].
  cbn [Py.rstrip]. destruct (Py.rstrip s) as [|c' r] eqn:Hr.
  - destruct (Py.isspace c) eqn:Hc; [reflexivity|].
    cbn [Py.rstrip]. now rewrite Hc.
  - change (Py.rstrip (String c (String c' r)))
      with (match Py.rstrip (String c' r) with
            | EmptyString =>
                if Py.isspace c then EmptyString else String c EmptyString
            | r' => String c r'
            end).
    now rewrite IH.
Qed.

Lemma lstrip_head (s : string) :
  match Py.lstrip s with
  | EmptyString => True
  | String c _ => Py.isspace c = false
  end.
Proof.
  induction s as [|c s IH]; [exact I|].
  cbn [Py.lstrip]. destruct (Py.isspace c) eqn:Hc; [exact IH|exact Hc].
Qed.

Lemma strip_idempotent (s : string) : Py.strip (Py.strip s) = Py.strip s.
Proof.
  unfold Py.strip. pose proof (lstrip_head s) as Hhead.
  destruct (Py.lstrip s) as [|c t]; [reflexivity|].
  rewrite (rstrip_keeps_head c t Hhead).
  cbn [Py.lstrip]. rewrite Hhead.
  rewrite (rstrip_keeps_head c _ Hhead). now rewrite rstrip_idempotent.
Qed.


Section Generation.

Variable World : Type.
Variable messages_create : Request -> World -> Outcome * World.
Variable repr : string -> string.

Abbreviation generate := (generate_alt_text messages_create repr).
Abbreviation record_of := (image_record messages_create repr).
Abbreviation extract := (extract_image_info messages_create repr).
Abbreviation after_images := (client_after messages_create repr).

Lemma generate_request (image_data : ImageData RoleInfo) (c : Client World) :
  is_decorative (role image_data) = false ->
  exists prompt,
    generate image_data c
    = (description (fst (messages_create (request_with prompt) (world c))),
       {| world := snd (messages_create (request_with prompt) (world c));
          requests := requests c ++ [request_with prompt] |}).
Proof.
  unfold generate_alt_text. intros ->. cbv zeta.
  match goal with
  | |- context [create _ {| messages := [ {| content := ?p |} ] |}] =>
      exists p
  end.
  unfold bind, create, request_with.
  destruct (messages_create _ (world c)) as [[text|e] w]; reflexivity.
Qed.

Lemma requests_after_images (imgs : list Handle) :
  forall c, exists sent,
    requests (after_images imgs c) = requests c ++ sent
    /\ length sent
       = length (List.filter
                   (fun img => negb (is_decorative (_determine_image_role img)))
                   imgs)
    /\ Forall (fun r => exists prompt, r = request_with prompt) sent.
Proof.
  induction imgs as [|img rest IH]; intros c.
  - exists []. cbn. now rewrite app_nil_r.
  - cbn [client_after List.filter]. rewrite record_of_assembled. cbn [snd].
    destruct (is_decorative (_determine_image_role img)) eqn:Hrole.
    + rewrite generate_decorative by exact Hrole. cbn [snd negb]. apply IH.
    + destruct (generate_request
                  (copy_with_role (_determine_image_role img) (assembled img))
                  c Hrole) as [prompt ->].
      cbn [snd negb]. destruct (IH {|
        world := snd (messages_create (request_with prompt) (world c));
        requests := requests c ++ [request_with prompt] |})
        as (sent & Hsent & Hlen & Hall).
      exists (request_with prompt :: sent). cbn [requests] in Hsent.
      rewrite Hsent, <- app_assoc. cbn. rewrite Hlen.
      split; [reflexivity|]. split; [reflexivity|].
      constructor; eauto.
Qed.

(** X11: over a whole document the service is asked once for each image
    that is not decorative and never otherwise: the requests sent are as
    many as those images, they are added after the requests sent before,
    and each names the model claude-3-opus-20240229, allows 150 tokens
    and holds one message, from the user. *)
Theorem X11_one_request_per_described_image (soup : PageElement)
  (c : Client World) :
  exists sent,
    requests (snd (extract soup c)) = requests c ++ sent
    /\ length sent
       = length (List.filter
                   (fun img => negb (is_decorative (_determine_image_role img)))
                   (images soup))
    /\ Forall (fun r =>
                 model r = "claude-3-opus-20240229"
                 /\ max_tokens r = 150%Z
                 /\ exists prompt,
                      messages r
                      = [ {| message_role := "user"; content := prompt |} ])
              sent.
Proof.
  rewrite extract_image_info_records. cbn [snd].
  destruct (requests_after_images (images soup) c)
    as (sent & Hsent & Hlen & Hall).
  exists sent. split; [exact Hsent|]. split; [exact Hlen|].
  eapply Forall_impl; [exact Hall|].
  intros r [prompt ->]. cbn. eauto.
Qed.


(** X13: the texts of a record are trimmed or marked: the title, when
    there is one, is left as it is by a further strip, and the suggested
    text is either left as it is by a further strip (the empty string of
    a decorative image, the trimmed answer of the service) or the error
    string built from an exception. *)
Theorem X13_record_texts_are_trimmed (soup : PageElement)
  (c : Client World) (i : nat) (d : ImageData string) :
  fst (extract soup c) !! i = Some d ->
  (forall t, title d = Some t -> Py.strip t = t)
  /\ exists s,
       suggested_alt d = Some s
       /\ (Py.strip s = s
           \/ exists e, s = "Error generating alt text: " +:+ e).
Proof.
  intros Hd. rewrite extract_image_info_records in Hd. cbn [fst] in Hd.
  apply records_from_lookup_inv in Hd. destruct Hd as (img & _ & ->).
  rewrite record_of_assembled.
  cbn [fst set_suggested_alt title suggested_alt]. split.
  - intros t. rewrite assembled_title. cbv zeta.
    destruct (Py.truthy _); [|discriminate].
    intros [= <-]. apply strip_idempotent.
  - eexists. split; [reflexivity|].
    destruct (is_decorative (_determine_image_role img)) eqn:Hrole.
    + rewrite generate_decorative by exact Hrole. now left.
    + destruct (generate_request
                  (copy_with_role (_determine_image_role img) (assembled img))
                  (after_images (take i (images soup)) c) Hrole)
        as [prompt ->].
      cbn [fst].
      destruct (fst (messages_create _ _)) as [text|e]; cbn [description].
      * left. apply strip_idempotent.
      * right. eauto.
Qed.

End Generation.


Lemma X13_witness :
  fst (extract_image_info failing_first quoted gallery_page fresh_client)
    !! 2 = Some shop_record
  /\ exists s,
       suggested_alt shop_record = Some s
       /\ (Py.strip s = s
           \/ exists e, s = "Error generating alt text: " +:+ e).
Proof.
  destruct (X13_record_texts_are_trimmed nat failing_first quoted
              gallery_page fresh_client 2 shop_record) as [_ Hs].
  - vm_compute. reflexivity.
  - split; [vm_compute; reflexivity|exact Hs].
Defined.

(** ** Fetching and processing a page *)

Lemma startswith_append (p s : string) : Py.startswith p (p +:+ s) = true.
Proof. apply startswith_spec. now exists s. Qed.

Section Processing.

Variable World : Type.
Variable messages_create : Request -> World -> Outcome * World.
Variable repr : string -> string.
Variable Net : Type.
Variable requests_get :
  string -> gmap string string -> Net -> Fetched * Net.
Variable html_parser : string -> Result PageElement.

Abbreviation process :=
  (process_url messages_create repr requests_get html_parser).
Abbreviation fetch := (fetch_page_content requests_get).

(** X14: when the request for the page fails with a RequestException,
    [process_url] raises an exception whose message wraps the message of
    the failure twice, first as an error of fetching and then as an error
    of processing; the request was sent with the User-Agent of the bot,
    and nothing is asked of the text-generation service. *)
Theorem X14_fetch_failure_is_wrapped_twice (url : string) (net net' : Net)
  (c : Client World) (e : string) :
  requests_get url
    {[ "User-Agent" := "Mozilla/5.0 (compatible; WCAGAltTextBot/1.0)" ]}
    net = (RequestException e, net') ->
  process url net c
  = (Raises ("Error processing URL: Error fetching URL: " +:+ e), net', c).
Proof.
  intros Hget. unfold process_url, fetch_page_content. cbv zeta.
  rewrite Hget. reflexivity.
Qed.

(** X15: [process_url] ends in one of two ways.  Either it raises, with
    a message that starts with Error processing URL, and the client of
    the text-generation service is as it was; or it returns, the page
    was fetched and parsed, and the result is that of
    [extract_image_info] on the parsed document. *)
Theorem X15_process_url_outcomes (url : string) (net : Net)
  (c : Client World) :
  match process url net c with
  | (Raises message, _, c') =>
      Py.startswith "Error processing URL: " message = true /\ c' = c
  | (Returns images_data, net', c') =>
      exists html_content soup,
        fetch url net = (Returns html_content, net')
        /\ html_parser html_content = Returns soup
        /\ extract_image_info messages_create repr soup c
           = (images_data, c')
  end.
Proof.
  unfold process_url.
  destruct (fetch url net) as [[html_content|e] net'] eqn:Hfetch.
  - destruct (html_parser html_content) as [soup|e] eqn:Hparse.
    + destruct (extract_image_info messages_create repr soup c)
        as [images_data c'] eqn:Hextract.
      exists html_content, soup. auto.
    + split; [apply startswith_append|reflexivity].
  - split; [apply startswith_append|reflexivity].
Qed.

End Processing.

Lemma X14_witness :
  process_url failing_first quoted offline gallery_parser
    "https://example.org/" 0 fresh_client
  = (Raises
       "Error processing URL: Error fetching URL: connection refused",
     1, fresh_client).
Proof.
  apply (X14_fetch_failure_is_wrapped_twice nat failing_first quoted nat
           offline gallery_parser "https://example.org/" 0 1 fresh_client
           "connection refused").
  reflexivity.
Defined.

(** ** The name of the report *)

Lemma contains_slash_cons (c : ascii) (s : string) :
  Py.contains "/" (String c s) = Ascii.eqb "/" c || Py.contains "/" s.
Proof.
  cbn [Py.contains]. f_equal. cbn [Py.startswith].
  destruct s; apply andb_true_r.
Qed.

Lemma contains_slash_append (s1 s2 : string) :
  Py.contains "/" (s1 +:+ s2) = Py.contains "/" s1 || Py.contains "/" s2.
Proof.
  induction s1 as [|c s1 IH].
  - reflexivity.
  - change (String c s1 +:+ s2) with (String c (s1 +:+ s2)).
    rewrite !contains_slash_cons, IH. now rewrite orb_assoc.
Qed.

Lemma startswith_slash (c : ascii) (s : string) :
  Py.startswith "/" (String c s) = Ascii.eqb "/" c.
Proof. cbn [Py.startswith]. destruct s; apply andb_true_r. Qed.

Lemma replace_slash_has_no_slash (s : string) :
  Py.contains "/" (replace_from "/" "_" 0 s) = false.
Proof.
  induction s as [|c s IH]; [reflexivity|].
  cbn [replace_from]. rewrite startswith_slash.
  change (Nat.pred (String.length "/")) with 0.
  destruct (Ascii.eqb "/" c) eqn:Hc.
  - change ("_" +:+ replace_from "/" "_" 0 s)
      with (String "_" (replace_from "/" "_" 0 s)).
    rewrite contains_slash_cons, IH. reflexivity.
  - rewrite contains_slash_cons, Hc, IH. reflexivity.
Qed.

Lemma safe_url_no_slash (url : string) :
  Py.contains "/" (safe_url url) = false.
Proof. unfold safe_url, str_replace. apply replace_slash_has_no_slash. Qed.

(** X16: whatever the address, the name made of it holds no slash: no
    way of writing it as a text, a slash and a text exists. *)
Theorem X16_safe_url_has_no_slash (url : string) :
  Py.contains "/" (safe_url url) = false
  /\ forall a b, safe_url url <> a +:+ "/" +:+ b.
Proof.
  split; [apply safe_url_no_slash|].
  intros a b Heq.
  assert (H : Py.contains "/" (safe_url url) = true).
  { apply contains_spec. now exists a, b. }
  rewrite safe_url_no_slash in H. discriminate.
Qed.

Lemma only_slash_splits (x y a b : string) :
  Py.contains "/" x = false -> Py.contains "/" y = false ->
  x +:+ "/" +:+ y = a +:+ "/" +:+ b ->
  a = x /\ b = y.
Proof.
  revert a. induction x as [|c x IH]; intros a Hx Hy Heq.
  - destruct a as [|c' a].
    + change (String "/" y = String "/" b) in Heq.
      injection Heq as ->. auto.
    + change (String "/" y = String c' (a +:+ "/" +:+ b)) in Heq.
      injection Heq as <- ->.
      assert (Hc : Py.contains "/" (a +:+ "/" +:+ b) = true).
      { apply contains_spec. now exists a, b. }
      congruence.
  - rewrite contains_slash_cons in Hx. apply orb_false_elim in Hx.
    destruct Hx as [Hc Hx].
    destruct a as [|c' a].
    + change (String c (x +:+ "/" +:+ y) = String "/" b) in Heq.
      injection Heq as -> _. discriminate Hc.
    + change (String c (x +:+ "/" +:+ y) = String c' (a +:+ "/" +:+ b))
        in Heq.
      injection Heq as <- Heq.
      destruct (IH a Hx Hy Heq) as [-> ->]. auto.
Qed.

(** X17: the report is written directly in the directory output: when
    the time stamp holds no slash, as one made of digits and an
    underscore does, the only slash of the file name is the one after
    output, whatever the address. *)
Theorem X17_report_is_directly_under_output (url timestamp a b : string) :
  Py.contains "/" timestamp = false ->
  filename url timestamp = a +:+ "/" +:+ b ->
  a = "output"
  /\ b = "image_analysis_" +:+ safe_url url +:+ "_" +:+ timestamp
         +:+ ".json".
Proof.
  intros Hts Heq.
  apply (only_slash_splits "output"
           ("image_analysis_" +:+ safe_url url +:+ "_" +:+ timestamp
            +:+ ".json")).
  - reflexivity.
  - rewrite !contains_slash_append, safe_url_no_slash, Hts.
    reflexivity.
  - exact Heq.
Qed.

Lemma X17_witness :
  filename "https://example.org/a/b" "20250101_120000"
  = "output" +:+ "/" +:+ "image_analysis_example.org_a_b_20250101_120000.json".
Proof.
  destruct (X17_report_is_directly_under_output "https://example.org/a/b"
              "20250101_120000" "output"
              "image_analysis_example.org_a_b_20250101_120000.json")
    as [_ Hb].
  - reflexivity.
  - reflexivity.
  - reflexivity.
Defined.

(** X18: the scheme does not reach the name: the http and the https
    address of a page give the name of the address without scheme, so at
    one time stamp both are saved under one file name. *)
Theorem X18_scheme_is_dropped (rest timestamp : string) :
  safe_url ("https://" +:+ rest) = safe_url rest
  /\ safe_url ("http://" +:+ rest) = safe_url rest
  /\ filename ("https://" +:+ rest) timestamp
     = filename ("http://" +:+ rest) timestamp.
Proof.
  assert (H1 : safe_url ("https://" +:+ rest) = safe_url rest)
    by reflexivity.
  assert (H2 : safe_url ("http://" +:+ rest) = safe_url rest)
    by reflexivity.
  unfold filename. now rewrite H1, H2.
Qed.
